(** * Identity-server handler and storage-engine factory of Synapse

    A shallow embedding of [synapse/handlers/identity.py] and of
    [synapse/storage/engines/__init__.py].  The handler's coroutines are
    written in a state-and-exception monad over a [World] that holds the
    persisted bindings, the trace of outbound HTTP requests, the trace of
    request signatures and the log. *)

From Stdlib Require Import ZArith Ascii.
From stdpp Require Import base strings list gmap.

Local Open Scope Z_scope.
Local Open Scope string_scope.
Set Warnings "-register-all".

(** ** JSON values *)

(** The values that travel in request bodies and in responses.  A Python
    dict is kept as an association list in insertion order; floats do not
    occur in the identity-service payloads and are left out. *)
Inductive json : Type :=
| JNull
| JBool (b : bool)
| JNum (n : Z)
| JStr (s : string)
| JArr (items : list json)
| JObj (fields : list (string * json)).

Fixpoint json_eqb (x y : json) {struct x} : bool :=
  match x, y with
  | JNull, JNull => true
  | JBool a, JBool b => Bool.eqb a b
  | JNum a, JNum b => Z.eqb a b
  | JStr a, JStr b => String.eqb a b
  | JArr xs, JArr ys =>
      (fix go (xs ys : list json) : bool :=
         match xs, ys with
         | [], [] => true
         | x' :: xs', y' :: ys' => json_eqb x' y' && go xs' ys'
         | _, _ => false
         end) xs ys
  | JObj xs, JObj ys =>
      (fix go (xs ys : list (string * json)) : bool :=
         match xs, ys with
         | [], [] => true
         | (k, x') :: xs', (k', y') :: ys' =>
             String.eqb k k' && json_eqb x' y' && go xs' ys'
         | _, _ => false
         end) xs ys
  | _, _ => false
  end.

(** [d[k]] and [k in d] on the association list of a dict. *)
Fixpoint dict_get (k : string) (d : list (string * json)) : option json :=
  match d with
  | [] => None
  | (k', v) :: d' => if String.eqb k k' then Some v else dict_get k d'
  end.

(** [d[k] = v]: an existing key keeps its position, a new one goes last. *)
Fixpoint dict_set (k : string) (v : json) (d : list (string * json))
  : list (string * json) :=
  match d with
  | [] => [(k, v)]
  | (k', v') :: d' =>
      if String.eqb k k' then (k, v) :: d' else (k', v') :: dict_set k v d'
  end.

(** [d.update(e)] *)
Definition dict_update (d e : list (string * json)) : list (string * json) :=
  fold_left (fun acc kv => dict_set (fst kv) (snd kv) acc) e d.

(** Python's substring test [needle in hay] on str. *)
Fixpoint is_substring (needle hay : string) : bool :=
  String.prefix needle hay
  || match hay with
     | EmptyString => false
     | String _ hay' => is_substring needle hay'
     end.

(** *** Decidable equality of JSON values *)

Section JsonInduction.
Variable P : json → Prop.
Hypothesis HNull : P JNull.
Hypothesis HBool : ∀ b, P (JBool b).
Hypothesis HNum : ∀ n, P (JNum n).
Hypothesis HStr : ∀ s, P (JStr s).
Hypothesis HArr : ∀ items, Forall P items → P (JArr items).
Hypothesis HObj : ∀ fields, Forall (λ kv, P (snd kv)) fields → P (JObj fields).

Fixpoint json_nested_ind (j : json) : P j :=
  match j with
  | JNull => HNull
  | JBool b => HBool b
  | JNum n => HNum n
  | JStr s => HStr s
  | JArr items =>
      HArr items
        ((fix go (l : list json) : Forall P l :=
            match l with
            | [] => Forall_nil_2 P
            | x :: l' => Forall_cons_2 P x l' (json_nested_ind x) (go l')
            end) items)
  | JObj fields =>
      HObj fields
        ((fix go (l : list (string * json)) : Forall (λ kv, P (snd kv)) l :=
            match l with
            | [] => Forall_nil_2 _
            | kv :: l' =>
                Forall_cons_2 (λ kv, P (snd kv)) kv l'
                  (json_nested_ind (snd kv)) (go l')
            end) fields)
  end.
End JsonInduction.

Lemma json_eqb_eq (x y : json) : json_eqb x y = true ↔ x = y.
Proof.
  revert y. induction x as [| b | n | s | xs IH | xs IH] using json_nested_ind;
    intros [| b' | n' | s' | ys | ys]; simpl; try (split; congruence).
  - rewrite Bool.eqb_true_iff. split; congruence.
  - rewrite Z.eqb_eq. split; congruence.
  - rewrite String.eqb_eq. split; congruence.
  - revert ys. induction IH as [| x xs Hx _ IHxs]; intros [| y ys];
      try (split; congruence).
    rewrite andb_true_iff, Hx, IHxs. split.
    + intros [-> [= ->]]. done.
    + intros [= -> ->]. done.
  - revert ys. induction IH as [| [k x] xs Hx _ IHxs]; intros [| [k' y] ys];
      try (split; congruence).
    simpl in Hx.
    rewrite !andb_true_iff, String.eqb_eq, Hx, IHxs. split.
    + intros [[-> ->] [= ->]]. done.
    + intros [= -> -> ->]. done.
Qed.

Lemma json_eqb_neq (x y : json) : json_eqb x y = false → x ≠ y.
Proof. intros H E. apply json_eqb_eq in E. congruence. Qed.

#[global] Instance json_eq_dec : EqDecision json :=
  λ x y,
    match json_eqb x y as b return json_eqb x y = b → Decision (x = y) with
    | true => λ H, left (proj1 (json_eqb_eq x y) H)
    | false => λ H, right (json_eqb_neq x y H)
    end eq_refl.

(** ** Exceptions *)

(** The error codes of [synapse.api.errors.Codes] that the handler uses;
    [UNKNOWN] is the default [errcode] of [SynapseError]. *)
Module Codes.
Inductive t : Set := UNKNOWN | SERVER_NOT_TRUSTED.
End Codes.

(** Modelled from the spec: [synapse.api.errors] is imported by the handler
    but is not among the sources.  Each class carries what the handler
    passes to it or reads from it: [CodeMessageException] a status code and
    a message; [SynapseError] (the spec's InvalidRequest, Forbidden and
    RemoteServerError, told apart by status and reason code) a reason code
    besides; [HttpResponseException] (the transport's error, with an
    HTTP-like status code and the error body) the response body besides.
    The last two are subclasses of the first.  The other constructors are
    the Python built-ins the code can raise, and [OtherException] stands
    for any failure of a collaborator that the handler does not name. *)
Inductive exn : Type :=
| CodeMessageException (code : Z) (msg : string)
| SynapseError (code : Z) (msg : string) (errcode : Codes.t)
| HttpResponseException (code : Z) (msg : string) (response : string)
| KeyError (key : string)
| TypeError
| ValueError
| RuntimeError (msg : string)
| OtherException (name : string).

(** [isinstance(e, CodeMessageException)], with the message [e.msg]. *)
Definition as_CodeMessageException (e : exn) : option string :=
  match e with
  | CodeMessageException _ msg
  | SynapseError _ msg _
  | HttpResponseException _ msg _ => Some msg
  | _ => None
  end.

(** ** The world a coroutine runs in *)

(** A row of the persisted-binding table. *)
Record Binding : Type := ThreepidBinding {
  binding_user_id : string;
  binding_medium : json;
  binding_address : json;
  binding_id_server : string
}.

#[global] Instance Binding_eq_dec : EqDecision Binding.
Proof. solve_decision. Defined.

Inductive Method : Set := GET | POST.

(** One outbound call on the simple HTTP client. *)
Record Request : Type := mkRequest {
  req_method : Method;
  req_url : string;
  req_body : json;
  req_headers : option (list (string * list string))
}.

(** The arguments of one call to [build_auth_headers]. *)
Record SignCall : Type := mkSignCall {
  destination : option string;
  method : string;
  url_bytes : string;
  content : json;
  destination_is : string
}.

Inductive Level : Set := DEBUG | INFO | WARNING | ERROR.

Inductive LogArg : Type :=
| LStr (s : string)
| LInt (n : Z)
| LDict (d : gmap string string)
| LExn (e : exn).

Record LogEvent : Type := mkLog {
  log_level : Level;
  log_format : string;
  log_args : list LogArg
}.

Record World : Type := mkWorld {
  bindings : list Binding;
  requests : list Request;
  signatures : list SignCall;
  logs : list LogEvent
}.

(** The world after one more log record. *)
Definition logged (ev : LogEvent) (w : World) : World :=
  mkWorld (bindings w) (requests w) (signatures w) (logs w ++ [ev]).

(** The world after one more outbound request. *)
Definition requested (r : Request) (w : World) : World :=
  mkWorld (bindings w) (requests w ++ [r]) (signatures w) (logs w).

(** The world after one more signature. *)
Definition signed (c : SignCall) (w : World) : World :=
  mkWorld (bindings w) (requests w) (signatures w ++ [c]) (logs w).

(** The world without the given row. *)
Definition pruned (b : Binding) (w : World) : World :=
  mkWorld (filter (λ b', b' ≠ b) (bindings w)) (requests w) (signatures w)
    (logs w).

(** The world with the given row, which is held at most once. *)
Definition recorded (b : Binding) (w : World) : World :=
  mkWorld (if decide (b ∈ bindings w) then bindings w else bindings w ++ [b])
    (requests w) (signatures w) (logs w).

(** ** The monad of coroutines: state over [World], with exceptions *)

Inductive Result (A : Type) : Type :=
| Return (a : A)
| Raise (e : exn).
Arguments Return {A} a.
Arguments Raise {A} e.

Definition Deferred (A : Type) : Type := World → Result A * World.

Definition ret {A} (a : A) : Deferred A := λ w, (Return a, w).

Definition raise {A} (e : exn) : Deferred A := λ w, (Raise e, w).

Definition bind {A B} (c : Deferred A) (k : A → Deferred B) : Deferred B :=
  λ w, match c w with
       | (Return a, w') => k a w'
       | (Raise e, w') => (Raise e, w')
       end.

(** [try: body except ... as e: handler]; a handler re-raises what its
    [except] clause does not name. *)
Definition try_except {A} (body : Deferred A) (handler : exn → Deferred A)
  : Deferred A :=
  λ w, match body w with
       | (Return a, w') => (Return a, w')
       | (Raise e, w') => handler e w'
       end.

Declare Scope deferred_scope.
Delimit Scope deferred_scope with deferred.
Notation "x <- c ;; k" := (bind c (λ x, k))
  (at level 100, c at next level, right associativity) : deferred_scope.
Notation "c ;;; k" := (bind c (λ _, k))
  (at level 100, right associativity) : deferred_scope.
Local Open Scope deferred_scope.

(** [d[k]] on a dict with string values. *)
Definition getitem {A} (d : gmap string A) (k : string) : Deferred A :=
  match d !! k with
  | Some v => ret v
  | None => raise (KeyError k)
  end.

(** [data[k]] on a decoded JSON value: only a dict can be indexed by a str. *)
Definition py_getitem (data : json) (k : string) : Deferred json :=
  match data with
  | JObj fields =>
      match dict_get k fields with
      | Some v => ret v
      | None => raise (KeyError k)
      end
  | _ => raise TypeError
  end.

(** [k in data] on a decoded JSON value. *)
Definition py_in (k : string) (data : json) : Deferred bool :=
  match data with
  | JObj fields => ret (bool_decide (is_Some (dict_get k fields)))
  | JArr items => ret (existsb (json_eqb (JStr k)) items)
  | JStr s => ret (is_substring k s)
  | _ => raise TypeError
  end.

(** Truth value of [d.get(k)] and of an optional str argument. *)
Definition truthy (o : option string) : bool :=
  match o with
  | Some s => negb (String.eqb s "")
  | None => false
  end.

Definition logger (lvl : Level) (fmt : string) (args : list LogArg)
  : Deferred unit :=
  λ w, (Return tt, logged (mkLog lvl fmt args) w).

(** ** The persisted-binding store *)

(** Modelled from the spec: the store is not among the sources.  It offers
    [add_binding], [remove_binding] and [list_id_servers] over rows
    [(user_id, medium, address, id_server)]; a row is held at most once. *)
Definition add_user_bound_threepid
  (user_id : string) (medium address : json) (id_server : string)
  : Deferred unit :=
  λ w, (Return tt,
        recorded (ThreepidBinding user_id medium address id_server) w).

Definition remove_user_bound_threepid
  (user_id : string) (medium address : json) (id_server : string)
  : Deferred unit :=
  λ w, (Return tt,
        pruned (ThreepidBinding user_id medium address id_server) w).

Definition get_id_servers_user_bound
  (user_id : string) (medium address : json) : Deferred (list string) :=
  λ w, (Return
          (binding_id_server <$>
             filter (λ b, binding_user_id b = user_id
                          ∧ binding_medium b = medium
                          ∧ binding_address b = address) (bindings w)),
        w).

(** ** Configuration and collaborators *)

Record Config : Type := mkConfig {
  trusted_third_party_id_servers : list string;
  rewrite_identity_server_urls : gmap string string;
  enable_3pid_lookup : bool
}.

(** The home server object [hs].  The simple HTTP client answers a request,
    given the requests made before it, with a decoded JSON body or with an
    exception; the federation client turns the arguments of
    [build_auth_headers] into the header values. *)
Record HomeServer : Type := mkHomeServer {
  config : Config;
  trust_any_id_server_just_for_testing_do_not_use : bool;
  get_simple_http_client : list Request → Request → Result json;
  get_http_client : SignCall → list string
}.

Definition http_call (hs : HomeServer) (r : Request) : Deferred json :=
  λ w, (get_simple_http_client hs (requests w) r, requested r w).

Definition get_json (hs : HomeServer) (uri : string) (args : json)
  : Deferred json :=
  http_call hs (mkRequest GET uri args None).

Definition post_json_get_json (hs : HomeServer) (uri : string)
  (post_json : json) (headers : option (list (string * list string)))
  : Deferred json :=
  http_call hs (mkRequest POST uri post_json headers).

Definition build_auth_headers (hs : HomeServer) (c : SignCall)
  : Deferred (list string) :=
  λ w, (Return (get_http_client hs c), signed c w).

(** ** [should_trust_id_server] *)

Definition should_trust_id_server (hs : HomeServer) (id_server : string)
  : Deferred bool :=
  if negb (bool_decide
             (id_server ∈ trusted_third_party_id_servers (config hs)))
  then
    if trust_any_id_server_just_for_testing_do_not_use hs then
      logger WARNING
        ("Trusting untrustworthy ID server %r even though it isn't"
         ++ " in the trusted id list for testing because"
         ++ " 'use_insecure_ssl_client_just_for_testing_do_not_use'"
         ++ " is set in the config")
        [LStr id_server] ;;;
      ret true
    else ret false
  else ret true.

(** ** [IdentityHandler] *)

Section IdentityHandler.

(** [json.loads] of canonicaljson: [None] when the text is not JSON (the
    decoder then raises [ValueError]). *)
Variable json_loads : string → option json.

(** [HttpResponseException.to_synapse_error], from the code, message and
    response body of the exception. *)
Variable to_synapse_error : Z → string → string → exn.

Variable hs : HomeServer.

(** [self.rewrite_identity_server_urls.get(host, host)] *)
Definition rewrite (host : string) : string :=
  default host (rewrite_identity_server_urls (config hs) !! host).

Definition threepid_from_creds (creds : gmap string string)
  : Deferred (option json) :=
  id_server <-
    match creds !! "id_server" with
    | Some v => ret v
    | None =>
        match creds !! "idServer" with
        | Some v => ret v
        | None => raise (SynapseError 400 "No id_server in creds" Codes.UNKNOWN)
        end
    end ;;
  client_secret <-
    match creds !! "client_secret" with
    | Some v => ret v
    | None =>
        match creds !! "clientSecret" with
        | Some v => ret v
        | None =>
            raise (SynapseError 400 "No client_secret in creds" Codes.UNKNOWN)
        end
    end ;;
  trusted <- should_trust_id_server hs id_server ;;
  if negb trusted then
    logger WARNING
      ("%s is not a trusted ID server: rejecting 3pid " ++ "credentials")
      [LStr id_server] ;;;
    ret None
  else
    let id_server := rewrite id_server in
    data <-
      try_except
        (sid <- getitem creds "sid" ;;
         get_json hs
           ("https://" ++ id_server
            ++ "/_matrix/identity/api/v1/3pid/getValidated3pid")
           (JObj [("sid", JStr sid); ("client_secret", JStr client_secret)]))
        (λ e,
           match e with
           | HttpResponseException code msg response =>
               logger INFO "getValidated3pid failed with Matrix error: %r"
                 [LExn e] ;;;
               raise (to_synapse_error code msg response)
           | _ => raise e
           end) ;;
    has_medium <- py_in "medium" data ;;
    if has_medium then ret (Some data) else ret None.

Definition bind_threepid (creds : gmap string string) (mxid : string)
  : Deferred json :=
  logger DEBUG "binding threepid %r to %s" [LDict creds; LStr mxid] ;;;
  id_server <-
    match creds !! "id_server" with
    | Some v => ret v
    | None =>
        match creds !! "idServer" with
        | Some v => ret v
        | None => raise (SynapseError 400 "No id_server in creds" Codes.UNKNOWN)
        end
    end ;;
  client_secret <-
    match creds !! "client_secret" with
    | Some v => ret v
    | None =>
        match creds !! "clientSecret" with
        | Some v => ret v
        | None =>
            raise (SynapseError 400 "No client_secret in creds" Codes.UNKNOWN)
        end
    end ;;
  let id_server_host := rewrite id_server in
  try_except
    (sid <- getitem creds "sid" ;;
     data <-
       post_json_get_json hs
         ("https://" ++ id_server_host ++ "/_matrix/identity/api/v1/3pid/bind")
         (JObj [("sid", JStr sid); ("client_secret", JStr client_secret);
                ("mxid", JStr mxid)])
         None ;;
     logger DEBUG "bound threepid %r to %s" [LDict creds; LStr mxid] ;;;
     medium <- py_getitem data "medium" ;;
     address <- py_getitem data "address" ;;
     add_user_bound_threepid mxid medium address id_server ;;;
     ret data)
    (λ e,
       match as_CodeMessageException e with
       | Some msg =>
           match json_loads msg with
           | Some data => ret data
           | None => raise ValueError
           end
       | None => raise e
       end).

Definition try_unbind_threepid_with_id_server
  (mxid : string) (threepid : gmap string string) (id_server : string)
  : Deferred bool :=
  medium <- getitem threepid "medium" ;;
  address <- getitem threepid "address" ;;
  let content :=
    JObj [("mxid", JStr mxid);
          ("threepid",
           JObj [("medium", JStr medium); ("address", JStr address)])] in
  auth_headers <-
    build_auth_headers hs
      (mkSignCall None "POST" "/_matrix/identity/api/v1/3pid/unbind"
         content id_server) ;;
  let headers := [("Authorization", auth_headers)] in
  let id_server := rewrite id_server in
  let url := "https://" ++ id_server ++ "/_matrix/identity/api/v1/3pid/unbind" in
  changed <-
    try_except
      (post_json_get_json hs url content (Some headers) ;;;
       ret true)
      (λ e,
         match e with
         | HttpResponseException code _ _ =>
             if ((code =? 400) || (code =? 404) || (code =? 501))%Z then
               logger WARNING "Received %d response while unbinding threepid"
                 [LInt code] ;;;
               ret false
             else
               logger ERROR
                 "Failed to unbind threepid on identity server: %s"
                 [LExn e] ;;;
               raise (SynapseError 502 "Failed to contact identity server"
                        Codes.UNKNOWN)
         | _ => raise e
         end) ;;
  medium <- getitem threepid "medium" ;;
  address <- getitem threepid "address" ;;
  remove_user_bound_threepid mxid (JStr medium) (JStr address) id_server ;;;
  ret changed.

(** The loop [for id_server in id_servers: changed &= yield ...]. *)
Fixpoint unbind_each (mxid : string) (threepid : gmap string string)
  (id_servers : list string) (changed : bool) : Deferred bool :=
  match id_servers with
  | [] => ret changed
  | id_server :: rest =>
      r <- try_unbind_threepid_with_id_server mxid threepid id_server ;;
      unbind_each mxid threepid rest (changed && r)
  end.

(** The [if threepid.get("id_server"): ... else: ...] that opens
    [try_unbind_threepid]. *)
Definition unbind_id_servers (mxid : string) (threepid : gmap string string)
  : Deferred (list string) :=
  if truthy (threepid !! "id_server") then
    id_server <- getitem threepid "id_server" ;;
    ret [id_server]
  else
    medium <- getitem threepid "medium" ;;
    address <- getitem threepid "address" ;;
    get_id_servers_user_bound mxid (JStr medium) (JStr address).

Definition try_unbind_threepid (mxid : string) (threepid : gmap string string)
  : Deferred bool :=
  id_servers <- unbind_id_servers mxid threepid ;;
  match id_servers with
  | [] => ret false
  | _ => unbind_each mxid threepid id_servers true
  end.

Definition requestEmailToken (id_server email client_secret : string)
  (send_attempt : Z) (next_link : option string) : Deferred json :=
  trusted <- should_trust_id_server hs id_server ;;
  if negb trusted then
    raise (SynapseError 400 ("Untrusted ID server '" ++ id_server ++ "'")
             Codes.SERVER_NOT_TRUSTED)
  else
    let params :=
      [("email", JStr email); ("client_secret", JStr client_secret);
       ("send_attempt", JNum send_attempt)] in
    let id_server := rewrite id_server in
    let params :=
      if truthy next_link then
        dict_update params [("next_link", from_option JStr JNull next_link)]
      else params in
    try_except
      (data <-
         post_json_get_json hs
           ("https://" ++ id_server
            ++ "/_matrix/identity/api/v1/validate/email/requestToken")
           (JObj params) None ;;
       ret data)
      (λ e,
         match e with
         | HttpResponseException code msg response =>
             logger INFO "Proxied requestToken failed: %r" [LExn e] ;;;
             raise (to_synapse_error code msg response)
         | _ => raise e
         end).

Definition requestMsisdnToken (id_server country phone_number
  client_secret : string) (send_attempt : Z) (kwargs : list (string * json))
  : Deferred json :=
  trusted <- should_trust_id_server hs id_server ;;
  if negb trusted then
    raise (SynapseError 400 ("Untrusted ID server '" ++ id_server ++ "'")
             Codes.SERVER_NOT_TRUSTED)
  else
    let id_server := rewrite id_server in
    let params :=
      [("country", JStr country); ("phone_number", JStr phone_number);
       ("client_secret", JStr client_secret);
       ("send_attempt", JNum send_attempt)] in
    let params := dict_update params kwargs in
    let id_server :=
      match rewrite_identity_server_urls (config hs) !! id_server with
      | Some host => host
      | None => id_server
      end in
    try_except
      (data <-
         post_json_get_json hs
           ("https://" ++ id_server
            ++ "/_matrix/identity/api/v1/validate/msisdn/requestToken")
           (JObj params) None ;;
       ret data)
      (λ e,
         match e with
         | HttpResponseException code msg response =>
             logger INFO "Proxied requestToken failed: %r" [LExn e] ;;;
             raise (to_synapse_error code msg response)
         | _ => raise e
         end).

End IdentityHandler.

(** ** The storage-engine factory *)

Module Engines.

Inductive EngineKind : Set := Postgres | Psycopg | Sqlite3.

(** An engine object: the backend it drives and the configuration it was
    built from. *)
Record BaseDatabaseEngine : Type := mkEngine {
  engine_kind : EngineKind;
  engine_config : gmap string json
}.

(** What the module-level names [PostgresEngine], [PsycopgEngine] and
    [Sqlite3Engine] can be bound to: the class of the submodule, or the
    class made by [dummy_engine]. *)
Inductive EngineClass : Type :=
| RealEngine (kind : EngineKind)
| DummyEngine (name module : string).

Definition dummy_engine (name module : string) : EngineClass :=
  DummyEngine name module.

(** Modelled from the spec: the submodules [.postgres], [.psycopg] and
    [.sqlite] are not among the sources; calling one of their classes
    yields the engine for that backend.  Calling a class made by
    [dummy_engine] runs its [__new__]. *)
Definition call (cls : EngineClass) (database_config : gmap string json)
  : Result BaseDatabaseEngine :=
  match cls with
  | RealEngine kind => Return (mkEngine kind database_config)
  | DummyEngine name module =>
      Raise (RuntimeError
               ("Cannot create " ++ name ++ "Engine -- " ++ module
                ++ " module is not installed"))
  end.

(** Whether each of the three [from . import] statements succeeds. *)
Record Imports : Set := mkImports {
  postgres_imports : bool;
  psycopg_imports : bool;
  sqlite_imports : bool
}.

Section Factory.

(** Python's [str] on a value that is not itself a str. *)
Variable py_str : json → string.

Variable env : Imports.

Definition PostgresEngine : EngineClass :=
  if postgres_imports env then RealEngine Postgres
  else dummy_engine "PostgresEngine" "psycopg2".

Definition PsycopgEngine : EngineClass :=
  if psycopg_imports env then RealEngine Psycopg
  else dummy_engine "PsycopgEngine" "psycopg".

Definition Sqlite3Engine : EngineClass :=
  if sqlite_imports env then RealEngine Sqlite3
  else dummy_engine "Sqlite3Engine" "sqlite3".

(** ["%s" % (v,)] *)
Definition format_s (v : json) : string :=
  match v with
  | JStr s => s
  | _ => py_str v
  end.

Definition create_engine (database_config : gmap string json)
  : Result BaseDatabaseEngine :=
  match database_config !! "name" with
  | None => Raise (KeyError "name")
  | Some name =>
      if decide (name = JStr "sqlite3") then
        call Sqlite3Engine database_config
      else if decide (name = JStr "psycopg2") then
        call PostgresEngine database_config
      else if decide (name = JStr "psycopg") then
        call PsycopgEngine database_config
      else
        Raise (RuntimeError
                 ("Unsupported database engine '" ++ format_s name ++ "'"))
  end.

End Factory.

End Engines.

(** * Observations

    The requests, signatures and runs that the properties speak of. *)

(** The credential field stored under either of its two spellings, the
    first spelling winning. *)
Definition cred_field (creds : gmap string string) (k k' : string)
  : option string :=
  match creds !! k with
  | Some v => Some v
  | None => creds !! k'
  end.

(** Unfolds the monad's combinators and the primitive effects. *)
Ltac run :=
  cbv beta delta
    [bind ret raise try_except logger getitem http_call get_json
     post_json_get_json build_auth_headers add_user_bound_threepid
     remove_user_bound_threepid get_id_servers_user_bound] in *.

(** The request that [bind_threepid] sends. *)
Definition bind_request (hs : HomeServer)
  (id_server client_secret sid mxid : string) : Request :=
  mkRequest POST
    ("https://" ++ rewrite hs id_server ++ "/_matrix/identity/api/v1/3pid/bind")
    (JObj [("sid", JStr sid); ("client_secret", JStr client_secret);
           ("mxid", JStr mxid)])
    None.

Definition unbind_content (mxid medium address : string) : json :=
  JObj [("mxid", JStr mxid);
        ("threepid", JObj [("medium", JStr medium); ("address", JStr address)])].

(** The signature that [try_unbind_threepid_with_id_server] asks for. *)
Definition unbind_sign_call (mxid medium address id_server : string)
  : SignCall :=
  mkSignCall None "POST" "/_matrix/identity/api/v1/3pid/unbind"
    (unbind_content mxid medium address) id_server.

(** The request that it sends. *)
Definition unbind_request (hs : HomeServer)
  (mxid medium address id_server : string) : Request :=
  mkRequest POST
    ("https://" ++ rewrite hs id_server ++ "/_matrix/identity/api/v1/3pid/unbind")
    (unbind_content mxid medium address)
    (Some [("Authorization",
            get_http_client hs
              (unbind_sign_call mxid medium address id_server))]).

Definition unsupported (code : Z) : bool :=
  ((code =? 400) || (code =? 404) || (code =? 501))%Z.

(** A run of per-host attempts, in order, each of which returns: the hosts,
    the world before, the results and the world after. *)
Inductive unbind_run (hs : HomeServer) (mxid : string)
  (threepid : gmap string string)
  : list string → World → list bool → World → Prop :=
| unbind_run_nil (w : World) : unbind_run hs mxid threepid [] w [] w
| unbind_run_cons (id_server : string) (rest : list string) (w w1 w2 : World)
    (r : bool) (rs : list bool) :
    try_unbind_threepid_with_id_server hs mxid threepid id_server w
    = (Return r, w1) →
    unbind_run hs mxid threepid rest w1 rs w2 →
    unbind_run hs mxid threepid (id_server :: rest) w (r :: rs) w2.

(** The request that [threepid_from_creds] sends. *)
Definition validated_request (hs : HomeServer)
  (id_server client_secret sid : string) : Request :=
  mkRequest GET
    ("https://" ++ rewrite hs id_server
     ++ "/_matrix/identity/api/v1/3pid/getValidated3pid")
    (JObj [("sid", JStr sid); ("client_secret", JStr client_secret)])
    None.

(** The body and the request of [requestEmailToken]. *)
Definition email_params (email client_secret : string) (send_attempt : Z)
  (next_link : option string) : list (string * json) :=
  [("email", JStr email); ("client_secret", JStr client_secret);
   ("send_attempt", JNum send_attempt)]
  ++ (if truthy next_link then [("next_link", from_option JStr JNull next_link)]
      else []).

Definition email_request (hs : HomeServer) (id_server email
  client_secret : string) (send_attempt : Z) (next_link : option string)
  : Request :=
  mkRequest POST
    ("https://" ++ rewrite hs id_server
     ++ "/_matrix/identity/api/v1/validate/email/requestToken")
    (JObj (email_params email client_secret send_attempt next_link))
    None.

(** The request of [requestMsisdnToken]. *)
Definition msisdn_request (hs : HomeServer) (id_server country phone_number
  client_secret : string) (send_attempt : Z) (kwargs : list (string * json))
  : Request :=
  mkRequest POST
    ("https://" ++ rewrite hs (rewrite hs id_server)
     ++ "/_matrix/identity/api/v1/validate/msisdn/requestToken")
    (JObj (dict_update
             [("country", JStr country); ("phone_number", JStr phone_number);
              ("client_secret", JStr client_secret);
              ("send_attempt", JNum send_attempt)] kwargs))
    None.

(** What the three proxying flows make of the remote side's answer: the
    payload, the translated HTTP error (after an INFO record), or the
    exception as it came. *)
Definition proxied_answer (to_synapse_error : Z → string → string → exn)
  (fmt : string) (answer : Result json) (w : World) : Result json * World :=
  match answer with
  | Return data => (Return data, w)
  | Raise (HttpResponseException code msg response) =>
      (Raise (to_synapse_error code msg response),
       logged (mkLog INFO fmt [LExn (HttpResponseException code msg response)])
         w)
  | Raise e => (Raise e, w)
  end.

(** The rows of one user, medium and address. *)
Definition rows_of (mxid medium address : string) (w : World) : list Binding :=
  filter (λ b, binding_user_id b = mxid
               ∧ binding_medium b = JStr medium
               ∧ binding_address b = JStr address) (bindings w).

(** The identity servers that the unbinding of a threepid goes through, in
    the words of the specification: the threepid's own [id_server] when
    one is given and is not empty, else the hosts recorded in the store for
    the user, medium and address. *)
Definition resolved_id_servers (mxid medium address : string)
  (given : option string) (w : World) : list string :=
  match given with
  | Some id_server =>
      if decide (id_server = "")
      then binding_id_server <$> rows_of mxid medium address w
      else [id_server]
  | None => binding_id_server <$> rows_of mxid medium address w
  end.

(** Whether an answer to an unbind request lets the attempt return: the
    remote side accepted, or refused with one of the statuses that mean
    unbinding is not supported. *)
Definition tolerated (answer : Result json) : bool :=
  match answer with
  | Return _ => true
  | Raise (HttpResponseException code _ _) => unsupported code
  | Raise _ => false
  end.

(** The row that an unbind attempt on the given host deletes. *)
Definition unbind_row (hs : HomeServer) (mxid medium address id_server : string)
  : Binding :=
  ThreepidBinding mxid (JStr medium) (JStr address) (rewrite hs id_server).

(** A step that leaves the store and the signatures alone and sends at
    most one request. *)
Definition read_only_step (w w' : World) : Prop :=
  bindings w' = bindings w
  ∧ signatures w' = signatures w
  ∧ (requests w' = requests w ∨ ∃ r, requests w' = (requests w ++ [r])%list).

(** * Sample configurations

    Concrete home servers, credentials and worlds on which the properties
    below are exercised. *)

Module Sample.

(** The double-quote character. *)
Definition dq : string := String "034"%char "".

Definition empty_world : World := mkWorld [] [] [] [].

(** [id.example] is trusted and is reached at [dial.example]. *)
Definition sample_config : Config :=
  mkConfig ["id.example"] {[ "id.example" := "dial.example" ]} true.

Definition signer (c : SignCall) : list string :=
  ["X-Matrix destination=" ++ destination_is c].

Definition bind_payload : json :=
  JObj [("medium", JStr "email"); ("address", JStr "alice@example.com")].

(** A remote side that accepts every request. *)
Definition accepting (_ : list Request) (_ : Request) : Result json :=
  Return bind_payload.

(** A remote side that answers every request with the given status. *)
Definition failing (code : Z) (_ : list Request) (_ : Request) : Result json :=
  Raise (HttpResponseException code "error" "{}").

(** The text [{"errcode":"M_FOO","error":"no"}] and the object it denotes. *)
Definition error_body : string :=
  "{" ++ dq ++ "errcode" ++ dq ++ ":" ++ dq ++ "M_FOO" ++ dq ++ ","
  ++ dq ++ "error" ++ dq ++ ":" ++ dq ++ "no" ++ dq ++ "}".

Definition error_payload : json :=
  JObj [("errcode", JStr "M_FOO"); ("error", JStr "no")].


(** A decoder that knows [error_body] and takes any other text for
    malformed. *)
Definition decode (s : string) : option json :=
  if String.eqb s error_body then Some error_payload else None.

Definition proxied (code : Z) (msg response : string) : exn :=
  SynapseError code msg Codes.UNKNOWN.

Definition home (remote : list Request → Request → Result json) : HomeServer :=
  mkHomeServer sample_config false remote signer.

Definition creds : gmap string string :=
  {[ "id_server" := "id.example"; "client_secret" := "s3cr3t"; "sid" := "abc" ]}.

Definition alice : string := "@alice:home.example".

Definition threepid : gmap string string :=
  {[ "medium" := "email"; "address" := "alice@example.com" ]}.

Definition alice_at (id_server : string) : Binding :=
  ThreepidBinding alice (JStr "email") (JStr "alice@example.com") id_server.

(** A store that holds Alice's address as bound at [id.example]. *)
Definition bound_world : World := mkWorld [alice_at "id.example"] [] [] [].

(** A remote side on which only the given dial address accepts an unbind,
    every other host answering with the given status. *)
Definition only_up (host : string) (code : Z) (_ : list Request) (r : Request)
  : Result json :=
  if String.eqb (req_url r)
       ("https://" ++ host ++ "/_matrix/identity/api/v1/3pid/unbind")
  then Return (JObj [])
  else Raise (HttpResponseException code "error" "{}").

(** No rewrite rules; Alice's address is bound at two servers. *)
Definition plain_home (remote : list Request → Request → Result json)
  : HomeServer :=
  mkHomeServer (mkConfig ["a.example"; "b.example"] ∅ true) false remote signer.

Definition twice_bound_world : World :=
  mkWorld [alice_at "a.example"; alice_at "b.example"] [] [] [].

(** Two rewrite rules that chain: [a.example] is reached at [b.example],
    and [b.example] at [c.example]. *)
Definition chained_home : HomeServer :=
  mkHomeServer
    (mkConfig ["a.example"]
       {[ "a.example" := "b.example"; "b.example" := "c.example" ]} true)
    false accepting signer.

End Sample.

(** Further sample values. *)
Module Scenario.

(** The credential of [Sample.creds] in the legacy spelling. *)
Definition legacy_creds : gmap string string :=
  {[ "idServer" := "id.example"; "clientSecret" := "s3cr3t"; "sid" := "abc" ]}.

(** The sample credential and threepid for another host. *)
Definition creds_at (id_server : string) : gmap string string :=
  <["id_server" := id_server]> Sample.creds.

Definition threepid_at (id_server : string) : gmap string string :=
  <["id_server" := id_server]> Sample.threepid.



(** A home server that trusts one more host than [Sample.home]. *)
Definition wider_home : HomeServer :=
  mkHomeServer
    (mkConfig ["other.example"; "id.example"]
       {[ "id.example" := "dial.example" ]} true)
    false Sample.accepting Sample.signer.

(** The worlds of an unbind from [a.example], which accepts, and then from
    [b.example], which answers 500. *)
Definition half_down : HomeServer :=
  Sample.plain_home (Sample.only_up "a.example" 500).

Definition after_a : World :=
  snd (try_unbind_threepid_with_id_server half_down Sample.alice
         Sample.threepid "a.example" Sample.twice_bound_world).

Definition after_b : World :=
  snd (try_unbind_threepid_with_id_server half_down Sample.alice
         Sample.threepid "b.example" after_a).

End Scenario.

(** * Properties *)

(** ** The trust predicate *)

Lemma should_trust_id_server_eq (hs : HomeServer) (id_server : string)
  (w : World) :
  ∃ ev, log_level ev = WARNING ∧ log_args ev = [LStr id_server] ∧
  should_trust_id_server hs id_server w =
    if bool_decide (id_server ∈ trusted_third_party_id_servers (config hs))
    then (Return true, w)
    else if trust_any_id_server_just_for_testing_do_not_use hs
         then (Return true, logged ev w)
         else (Return false, w).
Proof.
  eexists (mkLog WARNING _ [LStr id_server]).
  split; [reflexivity|]. split; [reflexivity|].
  unfold should_trust_id_server.
  destruct (bool_decide _); simpl; [reflexivity|].
  destruct (trust_any_id_server_just_for_testing_do_not_use hs); reflexivity.
Qed.

(** The trust check never performs a network call, never signs and never
    touches the store. *)
Lemma should_trust_id_server_frame (hs : HomeServer) (id_server : string)
  (w : World) :
  ∃ b w', should_trust_id_server hs id_server w = (Return b, w')
          ∧ requests w' = requests w ∧ bindings w' = bindings w
          ∧ signatures w' = signatures w.
Proof.
  destruct (should_trust_id_server_eq hs id_server w) as (ev & _ & _ & ->).
  destruct (bool_decide _); [by eauto 10|].
  destruct (trust_any_id_server_just_for_testing_do_not_use hs); by eauto 10.
Qed.

(** C7.  [should_trust_id_server] returns true for every host of the
    trusted list; for a host outside it, it returns true and logs one
    warning naming the host when the testing override is set, and returns
    false (logging nothing) when the override is unset.  With an empty
    trusted list and the override unset it returns false for every host.
    It never raises. *)
Theorem should_trust_id_server_decides (hs : HomeServer) (id_server : string)
  (w : World) :
  (id_server ∈ trusted_third_party_id_servers (config hs) →
   should_trust_id_server hs id_server w = (Return true, w))
  ∧ (id_server ∉ trusted_third_party_id_servers (config hs) →
     trust_any_id_server_just_for_testing_do_not_use hs = true →
     ∃ ev, log_level ev = WARNING ∧ log_args ev = [LStr id_server] ∧
           should_trust_id_server hs id_server w = (Return true, logged ev w))
  ∧ (id_server ∉ trusted_third_party_id_servers (config hs) →
     trust_any_id_server_just_for_testing_do_not_use hs = false →
     should_trust_id_server hs id_server w = (Return false, w))
  ∧ (trusted_third_party_id_servers (config hs) = [] →
     trust_any_id_server_just_for_testing_do_not_use hs = false →
     should_trust_id_server hs id_server w = (Return false, w))
  ∧ (∃ b w', should_trust_id_server hs id_server w = (Return b, w')).
Proof.
  destruct (should_trust_id_server_eq hs id_server w) as (ev & Hl & Ha & E).
  repeat split.
  - intros Hin. by rewrite E, bool_decide_eq_true_2.
  - intros Hout Hflag. exists ev.
    by rewrite E, bool_decide_eq_false_2, Hflag.
  - intros Hout Hflag. by rewrite E, bool_decide_eq_false_2, Hflag.
  - intros Hnil Hflag. rewrite E, bool_decide_eq_false_2, Hflag; [done|].
    rewrite Hnil. apply not_elem_of_nil.
  - destruct (should_trust_id_server_frame hs id_server w) as (b & w' & H & _).
    eauto.
Qed.

(** ** Credential extraction *)

Section Credentials.
Variable json_loads : string → option json.
Variable to_synapse_error : Z → string → string → exn.
Variable hs : HomeServer.

(** C6.  A credential object that lacks both spellings of [id_server], or
    both spellings of [client_secret], makes [threepid_from_creds] and
    [bind_threepid] raise [SynapseError] with status 400, and no request
    has been sent (nor anything signed or stored) by then. *)
Theorem missing_credential_field_rejected (creds : gmap string string)
  (mxid : string) (w : World) :
  (creds !! "id_server" = None ∧ creds !! "idServer" = None)
  ∨ (creds !! "client_secret" = None ∧ creds !! "clientSecret" = None) →
  (∃ msg,
     threepid_from_creds to_synapse_error hs creds w
     = (Raise (SynapseError 400 msg Codes.UNKNOWN), w))
  ∧ (∃ msg w',
       bind_threepid json_loads hs creds mxid w
       = (Raise (SynapseError 400 msg Codes.UNKNOWN), w')
       ∧ requests w' = requests w ∧ bindings w' = bindings w
       ∧ signatures w' = signatures w).
Proof.
  intros Hmissing. unfold threepid_from_creds, bind_threepid. run.
  destruct Hmissing as [[-> ->] | [-> ->]].
  - split; [by eexists|]. by eexists _, _.
  - destruct (creds !! "id_server") as [v|];
      [|destruct (creds !! "idServer") as [v|]];
      (split; [by eexists|]; by eexists _, _).
Qed.

End Credentials.

Lemma missing_credential_field_rejected_witness :
  (∃ msg,
     threepid_from_creds Sample.proxied (Sample.home Sample.accepting)
       (delete "id_server" Sample.creds) Sample.empty_world
     = (Raise (SynapseError 400 msg Codes.UNKNOWN), Sample.empty_world))
  ∧ (∃ msg w',
       bind_threepid Sample.decode (Sample.home Sample.accepting)
         (delete "id_server" Sample.creds) Sample.alice Sample.empty_world
       = (Raise (SynapseError 400 msg Codes.UNKNOWN), w')
       ∧ requests w' = requests Sample.empty_world
       ∧ bindings w' = bindings Sample.empty_world
       ∧ signatures w' = signatures Sample.empty_world).
Proof.
  apply (missing_credential_field_rejected Sample.decode Sample.proxied
           (Sample.home Sample.accepting) (delete "id_server" Sample.creds)
           Sample.alice Sample.empty_world).
  left. split; vm_compute; reflexivity.
Defined.

(** ** The trust gate and the unchecked [sid] *)

Section Gates.
Variable json_loads : string → option json.
Variable to_synapse_error : Z → string → string → exn.
Variable hs : HomeServer.

(** What [threepid_from_creds] does once both fields are found. *)
Lemma threepid_from_creds_fields (creds : gmap string string)
  (id_server client_secret : string) (w : World) :
  cred_field creds "id_server" "idServer" = Some id_server →
  cred_field creds "client_secret" "clientSecret" = Some client_secret →
  threepid_from_creds to_synapse_error hs creds w
  = match should_trust_id_server hs id_server w with
    | (Return false, w1) =>
        (Return None,
         logged (mkLog WARNING
                   ("%s is not a trusted ID server: rejecting 3pid "
                    ++ "credentials") [LStr id_server]) w1)
    | (Return true, w1) =>
        (data <-
           try_except
             (sid <- getitem creds "sid" ;;
              get_json hs
                ("https://" ++ rewrite hs id_server
                 ++ "/_matrix/identity/api/v1/3pid/getValidated3pid")
                (JObj [("sid", JStr sid);
                       ("client_secret", JStr client_secret)]))
             (λ e,
                match e with
                | HttpResponseException code msg response =>
                    logger INFO
                      "getValidated3pid failed with Matrix error: %r"
                      [LExn e] ;;;
                    raise (to_synapse_error code msg response)
                | _ => raise e
                end) ;;
         has_medium <- py_in "medium" data ;;
         if has_medium then ret (Some data) else ret None) w1
    | (Raise e, w1) => (Raise e, w1)
    end.
Proof.
  unfold cred_field, threepid_from_creds. intros Hid Hsecret.
  destruct (creds !! "id_server"); simplify_eq;
    [|rewrite Hid]; (destruct (creds !! "client_secret"); simplify_eq;
                     [|rewrite Hsecret]);
    unfold bind at 1 2 3; unfold ret at 1 2;
    destruct (should_trust_id_server hs id_server w) as [[[]|] w1];
    reflexivity.
Qed.

(** C8.  For a host that the trust predicate rejects, the two gated flows
    fail in different shapes: [threepid_from_creds] returns [None] and
    raises nothing, whereas [requestEmailToken] and [requestMsisdnToken]
    raise [SynapseError] with status 400 and the reason code
    [SERVER_NOT_TRUSTED]; none of the three has sent a request. *)
Theorem untrusted_server_two_shapes (creds : gmap string string)
  (id_server : string) (w : World) :
  cred_field creds "id_server" "idServer" = Some id_server →
  is_Some (cred_field creds "client_secret" "clientSecret") →
  fst (should_trust_id_server hs id_server w) = Return false →
  (∃ w', threepid_from_creds to_synapse_error hs creds w = (Return None, w')
         ∧ requests w' = requests w)
  ∧ (∀ email client_secret send_attempt next_link,
       requestEmailToken to_synapse_error hs id_server email client_secret
         send_attempt next_link w
       = (Raise (SynapseError 400 ("Untrusted ID server '" ++ id_server ++ "'")
                   Codes.SERVER_NOT_TRUSTED), w))
  ∧ (∀ country phone_number client_secret send_attempt kwargs,
       requestMsisdnToken to_synapse_error hs id_server country phone_number
         client_secret send_attempt kwargs w
       = (Raise (SynapseError 400 ("Untrusted ID server '" ++ id_server ++ "'")
                   Codes.SERVER_NOT_TRUSTED), w)).
Proof.
  intros Hid [client_secret Hsecret] Huntrusted.
  assert (should_trust_id_server hs id_server w = (Return false, w)) as Hgate.
  { destruct (should_trust_id_server_eq hs id_server w) as (ev & _ & _ & E).
    rewrite E in Huntrusted |- *.
    destruct (bool_decide _); [done|].
    by destruct (trust_any_id_server_just_for_testing_do_not_use hs). }
  split; [|split].
  - rewrite (threepid_from_creds_fields _ _ _ _ Hid Hsecret), Hgate.
    by eexists.
  - intros. unfold requestEmailToken, bind at 1. by rewrite Hgate.
  - intros. unfold requestMsisdnToken, bind at 1. by rewrite Hgate.
Qed.

(** C9.  Neither operation checks that [sid] is present.  With both other
    fields given but no ["sid"] key, [bind_threepid] always, and
    [threepid_from_creds] whenever the host passes the trust predicate,
    fails with the [KeyError] of [creds["sid"]] (not with a 400
    [SynapseError]), before any request is sent. *)
Theorem missing_sid_is_a_KeyError (creds : gmap string string)
  (id_server mxid : string) (w : World) :
  cred_field creds "id_server" "idServer" = Some id_server →
  is_Some (cred_field creds "client_secret" "clientSecret") →
  creds !! "sid" = None →
  (∃ w', bind_threepid json_loads hs creds mxid w = (Raise (KeyError "sid"), w')
         ∧ requests w' = requests w ∧ bindings w' = bindings w)
  ∧ (fst (should_trust_id_server hs id_server w) = Return true →
     ∃ w', threepid_from_creds to_synapse_error hs creds w
           = (Raise (KeyError "sid"), w')
           ∧ requests w' = requests w).
Proof.
  intros Hid [client_secret Hsecret] Hsid. split.
  - unfold cred_field in Hid, Hsecret. unfold bind_threepid. run.
    rewrite Hsid.
    destruct (creds !! "id_server"); simplify_eq; [|rewrite Hid];
      (destruct (creds !! "client_secret"); simplify_eq; [|rewrite Hsecret]);
      by eexists.
  - intros Htrusted.
    rewrite (threepid_from_creds_fields _ _ _ _ Hid Hsecret).
    destruct (should_trust_id_server_frame hs id_server w)
      as (b & w1 & E & Hreq & _).
    rewrite E in Htrusted |- *. simpl in Htrusted. simplify_eq.
    run. rewrite Hsid. by eexists.
Qed.

End Gates.

Lemma untrusted_server_two_shapes_witness :
  (∃ w', threepid_from_creds Sample.proxied (Sample.home Sample.accepting)
           (<["id_server" := "evil.example"]> Sample.creds) Sample.empty_world
         = (Return None, w')
         ∧ requests w' = requests Sample.empty_world)
  ∧ (∀ email client_secret send_attempt next_link,
       requestEmailToken Sample.proxied (Sample.home Sample.accepting)
         "evil.example" email client_secret send_attempt next_link
         Sample.empty_world
       = (Raise (SynapseError 400
                   ("Untrusted ID server '" ++ "evil.example" ++ "'")
                   Codes.SERVER_NOT_TRUSTED), Sample.empty_world))
  ∧ (∀ country phone_number client_secret send_attempt kwargs,
       requestMsisdnToken Sample.proxied (Sample.home Sample.accepting)
         "evil.example" country phone_number client_secret send_attempt kwargs
         Sample.empty_world
       = (Raise (SynapseError 400
                   ("Untrusted ID server '" ++ "evil.example" ++ "'")
                   Codes.SERVER_NOT_TRUSTED), Sample.empty_world)).
Proof.
  apply (untrusted_server_two_shapes Sample.proxied
           (Sample.home Sample.accepting)
           (<["id_server" := "evil.example"]> Sample.creds) "evil.example"
           Sample.empty_world).
  - vm_compute. reflexivity.
  - exists "s3cr3t". vm_compute. reflexivity.
  - vm_compute. reflexivity.
Defined.

Lemma missing_sid_is_a_KeyError_witness :
  (∃ w', bind_threepid Sample.decode (Sample.home Sample.accepting)
           (delete "sid" Sample.creds) Sample.alice Sample.empty_world
         = (Raise (KeyError "sid"), w')
         ∧ requests w' = requests Sample.empty_world
         ∧ bindings w' = bindings Sample.empty_world)
  ∧ (fst (should_trust_id_server (Sample.home Sample.accepting) "id.example"
            Sample.empty_world) = Return true →
     ∃ w', threepid_from_creds Sample.proxied (Sample.home Sample.accepting)
             (delete "sid" Sample.creds) Sample.empty_world
           = (Raise (KeyError "sid"), w')
           ∧ requests w' = requests Sample.empty_world).
Proof.
  apply (missing_sid_is_a_KeyError Sample.decode Sample.proxied
           (Sample.home Sample.accepting) (delete "sid" Sample.creds)
           "id.example" Sample.alice Sample.empty_world).
  - vm_compute. reflexivity.
  - exists "s3cr3t". vm_compute. reflexivity.
  - vm_compute. reflexivity.
Defined.

(** ** Binding *)

Section Binding.
Variable json_loads : string → option json.
Variable hs : HomeServer.

(** [bind_threepid] on a credential that carries all three fields, by the
    answer of the remote side. *)
Lemma bind_threepid_fields (creds : gmap string string)
  (id_server client_secret sid mxid : string) (w : World) :
  cred_field creds "id_server" "idServer" = Some id_server →
  cred_field creds "client_secret" "clientSecret" = Some client_secret →
  creds !! "sid" = Some sid →
  let req := bind_request hs id_server client_secret sid mxid in
  let w1 :=
    requested req
      (logged (mkLog DEBUG "binding threepid %r to %s" [LDict creds; LStr mxid])
         w) in
  bind_threepid json_loads hs creds mxid w
  = match get_simple_http_client hs (requests w) req with
    | Return data =>
        (medium <- py_getitem data "medium" ;;
         address <- py_getitem data "address" ;;
         add_user_bound_threepid mxid medium address id_server ;;;
         ret data)
          (logged (mkLog DEBUG "bound threepid %r to %s"
                     [LDict creds; LStr mxid]) w1)
    | Raise e =>
        match as_CodeMessageException e with
        | Some msg =>
            match json_loads msg with
            | Some data => (Return data, w1)
            | None => (Raise ValueError, w1)
            end
        | None => (Raise e, w1)
        end
    end.
Proof.
  unfold cred_field, bind_threepid, bind_request. intros Hid Hsecret Hsid.
  cbv zeta. run. rewrite Hsid.
  destruct (creds !! "id_server"); simplify_eq; [|rewrite Hid];
    (destruct (creds !! "client_secret"); simplify_eq; [|rewrite Hsecret]);
    cbn [requests logged requested];
    (destruct (get_simple_http_client hs _ _) as [data|e];
     [ unfold py_getitem; destruct data as [| | | | |fields]; try reflexivity;
       run; destruct (dict_get "medium" fields); [|reflexivity];
       destruct (dict_get "address" fields); reflexivity
     | destruct (as_CodeMessageException e); [|reflexivity];
       destruct (json_loads _); reflexivity ]).
Qed.


(** A code+message failure whose message is not JSON text surfaces as the
    decoder's [ValueError]. *)
Lemma bind_undecodable_error_body (creds : gmap string string)
  (id_server client_secret sid mxid : string) (w : World)
  (e : exn) (msg : string) :
  cred_field creds "id_server" "idServer" = Some id_server →
  cred_field creds "client_secret" "clientSecret" = Some client_secret →
  creds !! "sid" = Some sid →
  get_simple_http_client hs (requests w)
    (bind_request hs id_server client_secret sid mxid) = Raise e →
  as_CodeMessageException e = Some msg →
  json_loads msg = None →
  fst (bind_threepid json_loads hs creds mxid w) = Raise ValueError.
Proof.
  intros Hid Hsecret Hsid Hremote Hclass Hjson.
  rewrite (bind_threepid_fields _ _ _ _ _ _ Hid Hsecret Hsid).
  by rewrite Hremote, Hclass, Hjson.
Qed.

(** Whatever the remote side answers, a row that [bind_threepid] adds to
    the store is keyed by the user and by the credential's own
    [id_server], not by the address the request was sent to. *)
Lemma bind_persists_logical_host (creds : gmap string string)
  (id_server client_secret sid mxid : string) (w : World) (b : Binding) :
  cred_field creds "id_server" "idServer" = Some id_server →
  cred_field creds "client_secret" "clientSecret" = Some client_secret →
  creds !! "sid" = Some sid →
  b ∈ bindings (snd (bind_threepid json_loads hs creds mxid w)) →
  b ∈ bindings w
  ∨ (binding_user_id b = mxid ∧ binding_id_server b = id_server).
Proof.
  intros Hid Hsecret Hsid.
  rewrite (bind_threepid_fields _ _ _ _ _ _ Hid Hsecret Hsid).
  destruct (get_simple_http_client hs _ _) as [data|e].
  - unfold py_getitem. destruct data as [| | | | |fields]; try by left.
    run. destruct (dict_get "medium" fields) as [medium|]; [|by left].
    destruct (dict_get "address" fields) as [address|]; [|by left].
    cbn [snd bindings requested logged recorded]. case_decide; [by left|].
    rewrite elem_of_app, list_elem_of_singleton. intros [?| ->]; by eauto.
  - destruct (as_CodeMessageException e); [|by left].
    destruct (json_loads _); by left.
Qed.

(** A successful bind: the payload is returned as it came and the binding
    is in the store under the credential's own [id_server]. *)
Lemma bind_success (creds : gmap string string)
  (id_server client_secret sid mxid : string) (w : World)
  (fields : list (string * json)) (medium address : json) :
  cred_field creds "id_server" "idServer" = Some id_server →
  cred_field creds "client_secret" "clientSecret" = Some client_secret →
  creds !! "sid" = Some sid →
  get_simple_http_client hs (requests w)
    (bind_request hs id_server client_secret sid mxid) = Return (JObj fields) →
  dict_get "medium" fields = Some medium →
  dict_get "address" fields = Some address →
  ∃ w', bind_threepid json_loads hs creds mxid w = (Return (JObj fields), w')
        ∧ ThreepidBinding mxid medium address id_server ∈ bindings w'.
Proof.
  intros Hid Hsecret Hsid Hremote Hmedium Haddress.
  rewrite (bind_threepid_fields _ _ _ _ _ _ Hid Hsecret Hsid), Hremote.
  unfold py_getitem. run. rewrite Hmedium, Haddress.
  eexists. split; [reflexivity|].
  cbn [bindings requested logged recorded]. case_decide; [done|].
  rewrite elem_of_app, list_elem_of_singleton. by right.
Qed.

End Binding.



(** ** Unbinding from one identity server *)

Section UnbindOne.
Variable hs : HomeServer.

(** [try_unbind_threepid_with_id_server] on a threepid that carries its
    medium and address, by the answer of the remote side. *)
Lemma try_unbind_threepid_with_id_server_fields
  (mxid : string) (threepid : gmap string string)
  (medium address id_server : string) (w : World) :
  threepid !! "medium" = Some medium →
  threepid !! "address" = Some address →
  let req := unbind_request hs mxid medium address id_server in
  let w1 :=
    requested req
      (signed (unbind_sign_call mxid medium address id_server) w) in
  let row :=
    ThreepidBinding mxid (JStr medium) (JStr address) (rewrite hs id_server) in
  try_unbind_threepid_with_id_server hs mxid threepid id_server w
  = match get_simple_http_client hs (requests w) req with
    | Return _ => (Return true, pruned row w1)
    | Raise (HttpResponseException code msg response) =>
        if unsupported code then
          (Return false,
           pruned row
             (logged (mkLog WARNING
                        "Received %d response while unbinding threepid"
                        [LInt code]) w1))
        else
          (Raise (SynapseError 502 "Failed to contact identity server"
                    Codes.UNKNOWN),
           logged (mkLog ERROR
                     "Failed to unbind threepid on identity server: %s"
                     [LExn (HttpResponseException code msg response)]) w1)
    | Raise e => (Raise e, w1)
    end.
Proof.
  intros Hmedium Haddress. cbv zeta.
  unfold try_unbind_threepid_with_id_server, unbind_request, unbind_sign_call,
    unbind_content, unsupported.
  run. rewrite Hmedium, Haddress. cbn [requests signed requested].
  destruct (get_simple_http_client hs _ _) as [data|[]]; try reflexivity.
  destruct (_ || _); reflexivity.
Qed.

(** Every attempt signs exactly once, for the host it was asked to unbind
    from, and sends exactly one request. *)
Lemma try_unbind_threepid_with_id_server_traces
  (mxid : string) (threepid : gmap string string)
  (medium address id_server : string) (w : World) :
  threepid !! "medium" = Some medium →
  threepid !! "address" = Some address →
  let w' := snd (try_unbind_threepid_with_id_server hs mxid threepid
                   id_server w) in
  signatures w'
  = (signatures w ++ [unbind_sign_call mxid medium address id_server])%list
  ∧ requests w'
    = (requests w ++ [unbind_request hs mxid medium address id_server])%list.
Proof.
  intros Hmedium Haddress. cbv zeta.
  rewrite (try_unbind_threepid_with_id_server_fields _ _ _ _ _ _
             Hmedium Haddress).
  destruct (get_simple_http_client hs _ _) as [data|[]]; try done.
  by destruct (unsupported _).
Qed.

(** The status mapping of an attempt: success gives true, the statuses
    400, 404 and 501 give false with one warning, any other status gives
    [SynapseError] 502 with the store untouched. *)
Lemma try_unbind_threepid_with_id_server_outcome
  (mxid : string) (threepid : gmap string string)
  (medium address id_server : string) (w : World) :
  threepid !! "medium" = Some medium →
  threepid !! "address" = Some address →
  let run := try_unbind_threepid_with_id_server hs mxid threepid id_server w in
  let answer :=
    get_simple_http_client hs (requests w)
      (unbind_request hs mxid medium address id_server) in
  (∀ data, answer = Return data → fst run = Return true)
  ∧ (∀ code msg response,
       answer = Raise (HttpResponseException code msg response) →
       code ∈ [400; 404; 501]%Z →
       fst run = Return false
       ∧ logs (snd run)
         = (logs w ++ [mkLog WARNING
                         "Received %d response while unbinding threepid"
                         [LInt code]])%list)
  ∧ (∀ code msg response,
       answer = Raise (HttpResponseException code msg response) →
       code ∉ [400; 404; 501]%Z →
       fst run = Raise (SynapseError 502 "Failed to contact identity server"
                          Codes.UNKNOWN)
       ∧ bindings (snd run) = bindings w).
Proof.
  intros Hmedium Haddress. cbv zeta.
  rewrite (try_unbind_threepid_with_id_server_fields _ _ _ _ _ _
             Hmedium Haddress).
  split; [|split].
  - by intros data ->.
  - intros code msg response -> Hcode.
    replace (unsupported code) with true; [done|].
    unfold unsupported. set_unfold. destruct Hcode as [->| [->| [->|[]]]]; done.
  - intros code msg response -> Hcode.
    replace (unsupported code) with false; [done|].
    unfold unsupported. symmetry. rewrite !orb_false_iff, !Z.eqb_neq.
    set_unfold. naive_solver.
Qed.

(** Whenever an attempt returns, the row it deletes is the one keyed by
    the address the request was sent to. *)
Lemma try_unbind_threepid_with_id_server_prunes
  (mxid : string) (threepid : gmap string string)
  (medium address id_server : string) (w w' : World) (changed : bool) :
  threepid !! "medium" = Some medium →
  threepid !! "address" = Some address →
  try_unbind_threepid_with_id_server hs mxid threepid id_server w
  = (Return changed, w') →
  bindings w'
  = filter (λ b, b ≠ ThreepidBinding mxid (JStr medium) (JStr address)
                       (rewrite hs id_server)) (bindings w).
Proof.
  intros Hmedium Haddress.
  rewrite (try_unbind_threepid_with_id_server_fields _ _ _ _ _ _
             Hmedium Haddress).
  destruct (get_simple_http_client hs _ _) as [data|[]]; try by intros [= <- <-].
  destruct (unsupported _); by intros [= <- <-].
Qed.

(** Without a rewrite rule for the host, an attempt that returns removes
    the row of that host. *)
Lemma try_unbind_threepid_with_id_server_prunes_plain
  (mxid : string) (threepid : gmap string string)
  (medium address id_server : string) (w w' : World) (changed : bool) :
  threepid !! "medium" = Some medium →
  threepid !! "address" = Some address →
  rewrite_identity_server_urls (config hs) !! id_server = None →
  try_unbind_threepid_with_id_server hs mxid threepid id_server w
  = (Return changed, w') →
  ThreepidBinding mxid (JStr medium) (JStr address) id_server ∉ bindings w'.
Proof.
  intros Hmedium Haddress Hplain Hrun.
  rewrite (try_unbind_threepid_with_id_server_prunes _ _ _ _ _ _ _ _
             Hmedium Haddress Hrun).
  unfold rewrite. rewrite Hplain. simpl.
  rewrite list_elem_of_filter. intros [Hne _]. by apply Hne.
Qed.

(** With a rewrite rule that sends the host elsewhere, the row of that
    host survives every attempt. *)
Lemma try_unbind_threepid_with_id_server_keeps_row
  (mxid : string) (threepid : gmap string string)
  (medium address id_server : string) (w : World) :
  threepid !! "medium" = Some medium →
  threepid !! "address" = Some address →
  rewrite hs id_server ≠ id_server →
  ThreepidBinding mxid (JStr medium) (JStr address) id_server ∈ bindings w →
  ThreepidBinding mxid (JStr medium) (JStr address) id_server
  ∈ bindings (snd (try_unbind_threepid_with_id_server hs mxid threepid
                     id_server w)).
Proof.
  intros Hmedium Haddress Hrewritten Hrow.
  rewrite (try_unbind_threepid_with_id_server_fields _ _ _ _ _ _
             Hmedium Haddress).
  assert (ThreepidBinding mxid (JStr medium) (JStr address) id_server
          ∈ filter (λ b, b ≠ ThreepidBinding mxid (JStr medium) (JStr address)
                               (rewrite hs id_server)) (bindings w)) as Hkept.
  { rewrite list_elem_of_filter. split; [|done].
    intros E. apply Hrewritten. by injection E. }
  destruct (get_simple_http_client hs _ _) as [data|[]]; try done.
  by destruct (unsupported _).
Qed.

End UnbindOne.

(** C1.  Under the rule that sends [id.example] to [dial.example], an
    unbind from [id.example] that the remote side accepts is signed for
    [id.example] and sent to [dial.example], but the row it deletes is the
    one keyed by [dial.example]: the row of [id.example] is still in the
    store afterwards. *)
Theorem unbind_prunes_under_dial_address :
  let run :=
    try_unbind_threepid_with_id_server (Sample.home Sample.accepting)
      Sample.alice Sample.threepid "id.example" Sample.bound_world in
  fst run = Return true
  ∧ destination_is <$> signatures (snd run) = ["id.example"]
  ∧ req_url <$> requests (snd run)
    = ["https://dial.example/_matrix/identity/api/v1/3pid/unbind"]
  ∧ bindings (snd run) = [Sample.alice_at "id.example"]
  ∧ bindings (snd run)
    = filter (λ b, b ≠ Sample.alice_at "dial.example")
        (bindings Sample.bound_world).
Proof. vm_compute. repeat split; reflexivity. Qed.

(** C2.  Under the same rule, an unbind from [id.example] that the remote
    side answers with status 404 returns false and logs one warning, yet
    the row of [(user, medium, address, id.example)] is not removed. *)
Theorem unbind_unsupported_keeps_rewritten_row :
  let run :=
    try_unbind_threepid_with_id_server (Sample.home (Sample.failing 404))
      Sample.alice Sample.threepid "id.example" Sample.bound_world in
  fst run = Return false
  ∧ logs (snd run)
    = [mkLog WARNING "Received %d response while unbinding threepid"
         [LInt 404]]
  ∧ Sample.alice_at "id.example" ∈ bindings (snd run).
Proof.
  vm_compute. repeat split; try reflexivity. apply list_elem_of_here.
Qed.

(** ** Unbinding from every recorded identity server *)

Section UnbindAll.
Variable hs : HomeServer.
Variable mxid : string.
Variable threepid : gmap string string.

Lemma unbind_run_length (id_servers : list string) (w w' : World)
  (rs : list bool) :
  unbind_run hs mxid threepid id_servers w rs w' →
  length rs = length id_servers.
Proof. induction 1; simpl; congruence. Qed.

(** When every attempt returns, the loop returns the conjunction of the
    flag it started from and all the results. *)
Lemma unbind_each_returns (id_servers : list string) (w w' : World)
  (rs : list bool) (changed : bool) :
  unbind_run hs mxid threepid id_servers w rs w' →
  unbind_each hs mxid threepid id_servers changed w
  = (Return (changed && forallb id rs), w').
Proof.
  intros Hrun. revert changed.
  induction Hrun as [w|id_server rest w w1 w2 r rs Hone _ IH]; intros changed.
  - simpl. by rewrite andb_true_r.
  - cbn [unbind_each]. unfold bind at 1. rewrite Hone, IH.
    cbn [forallb id]. by rewrite andb_assoc.
Qed.

(** When an attempt raises, the loop stops there with that exception. *)
Lemma unbind_each_raises (done rest : list string) (id_server : string)
  (w w1 w2 : World) (rs : list bool) (e : exn) (changed : bool) :
  unbind_run hs mxid threepid done w rs w1 →
  try_unbind_threepid_with_id_server hs mxid threepid id_server w1
  = (Raise e, w2) →
  unbind_each hs mxid threepid (done ++ id_server :: rest) changed w
  = (Raise e, w2).
Proof.
  intros Hrun Hraise. revert changed.
  induction Hrun as [w|s done w w0 w1 r rs Hone _ IH]; intros changed.
  - cbn [app unbind_each]. unfold bind at 1. by rewrite Hraise.
  - cbn [app unbind_each]. unfold bind at 1. rewrite Hone. by apply IH.
Qed.

(** Every list of hosts is either run through to its end or cut short by
    the first attempt that raises. *)
Lemma unbind_run_or_raise (id_servers : list string) (w : World) :
  (∃ rs w', unbind_run hs mxid threepid id_servers w rs w')
  ∨ (∃ done id_server rest rs w1 e w2,
       id_servers = (done ++ id_server :: rest)%list
       ∧ unbind_run hs mxid threepid done w rs w1
       ∧ try_unbind_threepid_with_id_server hs mxid threepid id_server w1
         = (Raise e, w2)).
Proof.
  revert w. induction id_servers as [|s rest IH]; intros w.
  - left. eexists _, _. constructor.
  - destruct (try_unbind_threepid_with_id_server hs mxid threepid s w)
      as [[r|e] w1] eqn:Hone.
    + destruct (IH w1) as [(rs & w' & Hrun)
                          |(done & s' & rest' & rs & w2 & e & w3 & -> & Hrun & Hraise)].
      * left. eexists _, _. by econstructor.
      * right. exists (s :: done), s', rest', (r :: rs), w2, e, w3.
        split; [done|]. split; [by econstructor|done].
    + right. exists [], s, rest, [], w, e, w1.
      split; [done|]. split; [constructor|done].
Qed.

Variables medium address : string.
Hypothesis Hmedium : threepid !! "medium" = Some medium.
Hypothesis Haddress : threepid !! "address" = Some address.

(** A run sends one request per host, in order. *)
Lemma unbind_run_requests (id_servers : list string) (w w' : World)
  (rs : list bool) :
  unbind_run hs mxid threepid id_servers w rs w' →
  requests w'
  = (requests w
       ++ (unbind_request hs mxid medium address <$> id_servers))%list.
Proof.
  induction 1 as [w|id_server rest w w1 w2 r rs Hone _ IH].
  - by rewrite app_nil_r.
  - destruct (try_unbind_threepid_with_id_server_traces hs mxid threepid
                medium address id_server w Hmedium Haddress) as [_ Hreq].
    rewrite Hone in Hreq. simpl in Hreq.
    rewrite IH, Hreq, <- app_assoc. done.
Qed.

(** Resolving the hosts reads the store and changes nothing. *)
Lemma unbind_id_servers_pure (w : World) :
  ∃ id_servers, unbind_id_servers mxid threepid w = (Return id_servers, w).
Proof.
  unfold unbind_id_servers. run. rewrite Hmedium, Haddress.
  destruct (threepid !! "id_server") as [s|]; simpl.
  - destruct (negb _); by eexists.
  - by eexists.
Qed.

Lemma try_unbind_threepid_resolved (id_servers : list string) (w w1 : World) :
  unbind_id_servers mxid threepid w = (Return id_servers, w1) →
  try_unbind_threepid hs mxid threepid w
  = match id_servers with
    | [] => (Return false, w1)
    | _ => unbind_each hs mxid threepid id_servers true w1
    end.
Proof.
  intros Hres. unfold try_unbind_threepid, bind at 1. rewrite Hres.
  by destruct id_servers.
Qed.

(** The hosts that [try_unbind_threepid] goes through are the resolved
    ones, and resolving them changes nothing. *)
Lemma unbind_id_servers_resolved (w : World) :
  unbind_id_servers mxid threepid w
  = (Return (resolved_id_servers mxid medium address (threepid !! "id_server")
               w), w).
Proof.
  unfold unbind_id_servers, resolved_id_servers, truthy, getitem.
  rewrite Hmedium, Haddress.
  destruct (threepid !! "id_server") as [s|] eqn:Hgiven; [|done].
  destruct (String.eqb_spec s "") as [->|Hne].
  - by rewrite decide_True.
  - by rewrite decide_False.
Qed.

(** C4, as the code has it.  The hosts are the threepid's own [id_server]
    when one is given and is not empty, else the hosts recorded in the
    store for the user, medium and address.  If that list is empty,
    [try_unbind_threepid] returns false and the world is unchanged (no
    request is sent).  Otherwise the hosts are attempted in order.  When
    every attempt returns, one request per host has been sent (a false
    from one host does not stop the later ones) and the result is the
    conjunction of the per-host results.  When an attempt raises, that
    exception is the outcome and the hosts after it get no request.  One
    of these cases always applies. *)
Theorem try_unbind_threepid_aggregate (w : World) :
  let id_servers :=
    resolved_id_servers mxid medium address (threepid !! "id_server") w in
  (id_servers = [] →
   try_unbind_threepid hs mxid threepid w = (Return false, w))
  ∧ (∀ rs w',
       id_servers ≠ [] →
       unbind_run hs mxid threepid id_servers w rs w' →
       try_unbind_threepid hs mxid threepid w = (Return (forallb id rs), w')
       ∧ length rs = length id_servers
       ∧ requests w'
         = (requests w
              ++ (unbind_request hs mxid medium address <$> id_servers))%list)
  ∧ (∀ done id_server rest rs w1 e w2,
       id_servers = (done ++ id_server :: rest)%list →
       unbind_run hs mxid threepid done w rs w1 →
       try_unbind_threepid_with_id_server hs mxid threepid id_server w1
       = (Raise e, w2) →
       try_unbind_threepid hs mxid threepid w = (Raise e, w2)
       ∧ requests w2
         = (requests w
              ++ (unbind_request hs mxid medium address
                    <$> (done ++ [id_server])))%list)
  ∧ ((∃ rs w', unbind_run hs mxid threepid id_servers w rs w')
     ∨ (∃ done id_server rest rs w1 e w2,
          id_servers = (done ++ id_server :: rest)%list
          ∧ unbind_run hs mxid threepid done w rs w1
          ∧ try_unbind_threepid_with_id_server hs mxid threepid id_server w1
            = (Raise e, w2))).
Proof.
  cbv zeta.
  rewrite (try_unbind_threepid_resolved _ _ _ (unbind_id_servers_resolved w)).
  generalize (resolved_id_servers mxid medium address
                (threepid !! "id_server") w).
  intros id_servers.
  split; [by intros ->|]. split; [|split].
  - intros rs w' Hne Hrun.
    rewrite (unbind_run_requests _ _ _ _ Hrun), (unbind_run_length _ _ _ _ Hrun).
    destruct id_servers as [|s rest]; [done|].
    by rewrite (unbind_each_returns _ _ _ _ true Hrun).
  - intros done s rest rs w1 e w2 -> Hrun Hraise. split.
    + rewrite <- (unbind_each_raises _ rest _ _ _ _ _ _ true Hrun Hraise).
      by destruct done.
    + destruct (try_unbind_threepid_with_id_server_traces hs mxid threepid
                  medium address s w1 Hmedium Haddress) as [_ Hreq].
      rewrite Hraise in Hreq. simpl in Hreq.
      rewrite Hreq, (unbind_run_requests _ _ _ _ Hrun), fmap_app, app_assoc.
      done.
  - apply unbind_run_or_raise.
Qed.

End UnbindAll.

Lemma try_unbind_threepid_aggregate_witness :
  let id_servers :=
    resolved_id_servers Sample.alice "email" "alice@example.com"
      (Sample.threepid !! "id_server") Sample.twice_bound_world in
  id_servers = ["a.example"; "b.example"]
  ∧ (id_servers = [] →
       try_unbind_threepid (Sample.plain_home Sample.accepting) Sample.alice
         Sample.threepid Sample.twice_bound_world
       = (Return false, Sample.twice_bound_world))
    ∧ (∀ rs w',
         id_servers ≠ [] →
         unbind_run (Sample.plain_home Sample.accepting) Sample.alice
           Sample.threepid id_servers Sample.twice_bound_world rs w' →
         try_unbind_threepid (Sample.plain_home Sample.accepting) Sample.alice
           Sample.threepid Sample.twice_bound_world
         = (Return (forallb id rs), w')
         ∧ length rs = length id_servers
         ∧ requests w'
           = (requests Sample.twice_bound_world
                ++ (unbind_request (Sample.plain_home Sample.accepting)
                      Sample.alice "email" "alice@example.com"
                      <$> id_servers))%list)
    ∧ (∀ done id_server rest rs w1 e w2,
         id_servers = (done ++ id_server :: rest)%list →
         unbind_run (Sample.plain_home Sample.accepting) Sample.alice
           Sample.threepid done Sample.twice_bound_world rs w1 →
         try_unbind_threepid_with_id_server (Sample.plain_home Sample.accepting)
           Sample.alice Sample.threepid id_server w1
         = (Raise e, w2) →
         try_unbind_threepid (Sample.plain_home Sample.accepting) Sample.alice
           Sample.threepid Sample.twice_bound_world
         = (Raise e, w2)
         ∧ requests w2
           = (requests Sample.twice_bound_world
                ++ (unbind_request (Sample.plain_home Sample.accepting)
                      Sample.alice "email" "alice@example.com"
                      <$> (done ++ [id_server])))%list)
    ∧ ((∃ rs w',
          unbind_run (Sample.plain_home Sample.accepting) Sample.alice
            Sample.threepid id_servers Sample.twice_bound_world rs w')
       ∨ (∃ done id_server rest rs w1 e w2,
            id_servers = (done ++ id_server :: rest)%list
            ∧ unbind_run (Sample.plain_home Sample.accepting) Sample.alice
                Sample.threepid done Sample.twice_bound_world rs w1
            ∧ try_unbind_threepid_with_id_server
                (Sample.plain_home Sample.accepting) Sample.alice
                Sample.threepid id_server w1
              = (Raise e, w2))).
Proof.
  split; [vm_compute; reflexivity|].
  apply (try_unbind_threepid_aggregate (Sample.plain_home Sample.accepting)
           Sample.alice Sample.threepid "email" "alice@example.com");
    vm_compute; reflexivity.
Defined.

(** Against the claim C4 as stated: Alice's address is bound at
    [a.example] and [b.example]; [a.example] answers 500 and [b.example]
    would accept.  The attempt on [a.example] raises, and [b.example],
    though in the resolved set, is never sent a request. *)
Lemma unbind_all_stops_at_failed_host :
  fst (unbind_id_servers Sample.alice Sample.threepid Sample.twice_bound_world)
  = Return ["a.example"; "b.example"]
  ∧ fst (try_unbind_threepid (Sample.plain_home (Sample.only_up "b.example" 500))
           Sample.alice Sample.threepid Sample.twice_bound_world)
    = Raise (SynapseError 502 "Failed to contact identity server"
               Codes.UNKNOWN)
  ∧ req_url
      <$> requests
            (snd (try_unbind_threepid
                    (Sample.plain_home (Sample.only_up "b.example" 500))
                    Sample.alice Sample.threepid Sample.twice_bound_world))
    = ["https://a.example/_matrix/identity/api/v1/3pid/unbind"]
  ∧ fst (try_unbind_threepid_with_id_server
           (Sample.plain_home (Sample.only_up "b.example" 500))
           Sample.alice Sample.threepid "b.example"
           (snd (try_unbind_threepid
                   (Sample.plain_home (Sample.only_up "b.example" 500))
                   Sample.alice Sample.threepid Sample.twice_bound_world)))
    = Return true.
Proof. vm_compute. repeat split; reflexivity. Qed.

(** Two hosts, the first of which answers 404 and the second accepts: both
    are attempted, the result is false and both rows are gone. *)
Example unbind_all_unsupported_then_accepted :
  fst (try_unbind_threepid (Sample.plain_home (Sample.only_up "b.example" 404))
         Sample.alice Sample.threepid Sample.twice_bound_world)
  = Return false
  ∧ req_url
      <$> requests
            (snd (try_unbind_threepid
                    (Sample.plain_home (Sample.only_up "b.example" 404))
                    Sample.alice Sample.threepid Sample.twice_bound_world))
    = ["https://a.example/_matrix/identity/api/v1/3pid/unbind";
       "https://b.example/_matrix/identity/api/v1/3pid/unbind"]
  ∧ bindings
      (snd (try_unbind_threepid
              (Sample.plain_home (Sample.only_up "b.example" 404))
              Sample.alice Sample.threepid Sample.twice_bound_world))
    = [].
Proof. vm_compute. repeat split; reflexivity. Qed.

(** ** Token requests *)

Section TokenRequests.
Variable to_synapse_error : Z → string → string → exn.
Variable hs : HomeServer.

(** For a trusted host, [requestEmailToken] sends its one request to the
    host that a single lookup in the rewrite rules gives. *)
Lemma requestEmailToken_dials (id_server email client_secret : string)
  (send_attempt : Z) (next_link : option string) (w : World) :
  fst (should_trust_id_server hs id_server w) = Return true →
  req_url
    <$> drop (length (requests w))
          (requests (snd (requestEmailToken to_synapse_error hs id_server email
                            client_secret send_attempt next_link w)))
  = ["https://" ++ rewrite hs id_server
     ++ "/_matrix/identity/api/v1/validate/email/requestToken"].
Proof.
  intros Htrusted. unfold requestEmailToken, bind at 1.
  destruct (should_trust_id_server_frame hs id_server w)
    as (b & w1 & E & Hreq & _).
  rewrite E in Htrusted |- *. simpl in Htrusted. simplify_eq.
  run. cbn [negb].
  destruct (get_simple_http_client hs _ _) as [data|[]];
    cbn [snd requests requested logged]; by rewrite Hreq, drop_app_length.
Qed.

(** [requestMsisdnToken] looks the host up, and then looks the result up
    again. *)
Lemma requestMsisdnToken_dials (id_server country phone_number
  client_secret : string) (send_attempt : Z) (kwargs : list (string * json))
  (w : World) :
  fst (should_trust_id_server hs id_server w) = Return true →
  req_url
    <$> drop (length (requests w))
          (requests (snd (requestMsisdnToken to_synapse_error hs id_server
                            country phone_number client_secret send_attempt
                            kwargs w)))
  = ["https://" ++ rewrite hs (rewrite hs id_server)
     ++ "/_matrix/identity/api/v1/validate/msisdn/requestToken"].
Proof.
  intros Htrusted. unfold requestMsisdnToken, bind at 1.
  destruct (should_trust_id_server_frame hs id_server w)
    as (b & w1 & E & Hreq & _).
  rewrite E in Htrusted |- *. simpl in Htrusted. simplify_eq.
  run. cbn [negb].
  replace (match rewrite_identity_server_urls (config hs) !! rewrite hs id_server
           with Some host => host | None => rewrite hs id_server end)
    with (rewrite hs (rewrite hs id_server))
    by (unfold rewrite at 1; by destruct (_ !! rewrite hs id_server)).
  destruct (get_simple_http_client hs _ _) as [data|[]];
    cbn [snd requests requested logged]; by rewrite Hreq, drop_app_length.
Qed.

(** When the rules do not chain from the host, the second lookup changes
    nothing and both token requests dial the same address. *)
Lemma requestMsisdnToken_dials_unchained (id_server country phone_number
  client_secret : string) (send_attempt : Z) (kwargs : list (string * json))
  (w : World) :
  fst (should_trust_id_server hs id_server w) = Return true →
  rewrite_identity_server_urls (config hs) !! rewrite hs id_server = None →
  req_url
    <$> drop (length (requests w))
          (requests (snd (requestMsisdnToken to_synapse_error hs id_server
                            country phone_number client_secret send_attempt
                            kwargs w)))
  = ["https://" ++ rewrite hs id_server
     ++ "/_matrix/identity/api/v1/validate/msisdn/requestToken"].
Proof.
  intros Htrusted Hend.
  rewrite (requestMsisdnToken_dials _ _ _ _ _ _ _ Htrusted).
  unfold rewrite at 1. by rewrite Hend.
Qed.

End TokenRequests.

(** C5.  With rules that send [a.example] to [b.example] and [b.example]
    to [c.example], one lookup of [a.example] gives [b.example], and
    [requestEmailToken] dials [b.example]; [requestMsisdnToken] dials
    [c.example]. *)
Theorem requestMsisdnToken_rewrites_twice :
  rewrite Sample.chained_home "a.example" = "b.example"
  ∧ req_url
      <$> requests
            (snd (requestEmailToken Sample.proxied Sample.chained_home
                    "a.example" "alice@example.com" "s3cr3t" 1 None
                    Sample.empty_world))
    = ["https://b.example/_matrix/identity/api/v1/validate/email/requestToken"]
  ∧ req_url
      <$> requests
            (snd (requestMsisdnToken Sample.proxied Sample.chained_home
                    "a.example" "GB" "07700900000" "s3cr3t" 1 []
                    Sample.empty_world))
    = ["https://c.example/_matrix/identity/api/v1/validate/msisdn/requestToken"].
Proof. vm_compute. repeat split; reflexivity. Qed.

(** ** The engine factory *)

(** C10.  [create_engine] looks at [database_config["name"]].  For
    ["sqlite3"], ["psycopg2"] and ["psycopg"] it builds the engine of that
    backend when the backend's module could be imported, and otherwise
    raises a [RuntimeError] that names the missing module; for every other
    name it raises a [RuntimeError]. *)
Theorem create_engine_by_name (py_str : json → string) (env : Engines.Imports)
  (database_config : gmap string json) (name : json) :
  database_config !! "name" = Some name →
  (name = JStr "sqlite3" →
   Engines.create_engine py_str env database_config
   = if Engines.sqlite_imports env
     then Return (Engines.mkEngine Engines.Sqlite3 database_config)
     else Raise (RuntimeError
                   ("Cannot create Sqlite3EngineEngine -- sqlite3"
                    ++ " module is not installed")))
  ∧ (name = JStr "psycopg2" →
     Engines.create_engine py_str env database_config
     = if Engines.postgres_imports env
       then Return (Engines.mkEngine Engines.Postgres database_config)
       else Raise (RuntimeError
                     ("Cannot create PostgresEngineEngine -- psycopg2"
                      ++ " module is not installed")))
  ∧ (name = JStr "psycopg" →
     Engines.create_engine py_str env database_config
     = if Engines.psycopg_imports env
       then Return (Engines.mkEngine Engines.Psycopg database_config)
       else Raise (RuntimeError
                     ("Cannot create PsycopgEngineEngine -- psycopg"
                      ++ " module is not installed")))
  ∧ (name ∉ [JStr "sqlite3"; JStr "psycopg2"; JStr "psycopg"] →
     Engines.create_engine py_str env database_config
     = Raise (RuntimeError
                ("Unsupported database engine '"
                 ++ Engines.format_s py_str name ++ "'"))).
Proof.
  intros Hname. unfold Engines.create_engine. rewrite Hname.
  repeat split.
  - intros ->. rewrite decide_True by done.
    unfold Engines.Sqlite3Engine. by destruct (Engines.sqlite_imports env).
  - intros ->. rewrite decide_False, decide_True by done.
    unfold Engines.PostgresEngine. by destruct (Engines.postgres_imports env).
  - intros ->. rewrite !decide_False, decide_True by done.
    unfold Engines.PsycopgEngine. by destruct (Engines.psycopg_imports env).
  - intros Hother. rewrite !decide_False; [done|..];
      intros ->; apply Hother; set_solver.
Qed.

Lemma create_engine_by_name_witness :
  let database_config : gmap string json := {[ "name" := JStr "psycopg2" ]} in
  let env := Engines.mkImports false true true in
  let name := JStr "psycopg2" in
  let py_str := λ _ : json, "" in
  (name = JStr "sqlite3" →
   Engines.create_engine py_str env database_config
   = if Engines.sqlite_imports env
     then Return (Engines.mkEngine Engines.Sqlite3 database_config)
     else Raise (RuntimeError
                   ("Cannot create Sqlite3EngineEngine -- sqlite3"
                    ++ " module is not installed")))
  ∧ (name = JStr "psycopg2" →
     Engines.create_engine py_str env database_config
     = if Engines.postgres_imports env
       then Return (Engines.mkEngine Engines.Postgres database_config)
       else Raise (RuntimeError
                     ("Cannot create PostgresEngineEngine -- psycopg2"
                      ++ " module is not installed")))
  ∧ (name = JStr "psycopg" →
     Engines.create_engine py_str env database_config
     = if Engines.psycopg_imports env
       then Return (Engines.mkEngine Engines.Psycopg database_config)
       else Raise (RuntimeError
                     ("Cannot create PsycopgEngineEngine -- psycopg"
                      ++ " module is not installed")))
  ∧ (name ∉ [JStr "sqlite3"; JStr "psycopg2"; JStr "psycopg"] →
     Engines.create_engine py_str env database_config
     = Raise (RuntimeError
                ("Unsupported database engine '"
                 ++ Engines.format_s py_str name ++ "'"))).
Proof.
  apply (create_engine_by_name (λ _, "") (Engines.mkImports false true true)
           {[ "name" := JStr "psycopg2" ]} (JStr "psycopg2")).
  vm_compute. reflexivity.
Defined.

(** * Further properties *)

(** ** Verification of a credential *)

Lemma py_in_pure (k : string) (data : json) (w : World) :
  ∃ r, py_in k data w = (r, w).
Proof. destruct data; by eexists. Qed.

Section Verification.
Variable to_synapse_error : Z → string → string → exn.
Variable hs : HomeServer.

(** X1.  For a credential with all three fields whose host passes the
    trust predicate, [threepid_from_creds] sends exactly one request, a GET
    of getValidated3pid at the rewritten host with the sid and the client
    secret.  A dict answer is returned as it came when it has a ["medium"]
    key and replaced by [None] when it has none; an [HttpResponseException]
    is raised again through [to_synapse_error]; any other exception
    propagates unchanged. *)
Theorem threepid_from_creds_verifies (creds : gmap string string)
  (id_server client_secret sid : string) (w : World) :
  cred_field creds "id_server" "idServer" = Some id_server →
  cred_field creds "client_secret" "clientSecret" = Some client_secret →
  creds !! "sid" = Some sid →
  fst (should_trust_id_server hs id_server w) = Return true →
  let req := validated_request hs id_server client_secret sid in
  let answer := get_simple_http_client hs (requests w) req in
  let run := threepid_from_creds to_synapse_error hs creds w in
  requests (snd run) = (requests w ++ [req])%list
  ∧ (∀ fields,
       answer = Return (JObj fields) →
       fst run = Return (if bool_decide (is_Some (dict_get "medium" fields))
                         then Some (JObj fields) else None))
  ∧ (∀ code msg response,
       answer = Raise (HttpResponseException code msg response) →
       fst run = Raise (to_synapse_error code msg response))
  ∧ (∀ e, answer = Raise e →
          (∀ code msg response, e ≠ HttpResponseException code msg response) →
          fst run = Raise e).
Proof.
  intros Hid Hsecret Hsid Htrusted. cbv zeta.
  rewrite (threepid_from_creds_fields _ _ _ _ _ _ Hid Hsecret).
  destruct (should_trust_id_server_frame hs id_server w)
    as (b & w1 & E & Hreq & _).
  rewrite E in Htrusted |- *. simpl in Htrusted. simplify_eq.
  unfold validated_request. run. rewrite Hsid, Hreq.
  destruct (get_simple_http_client hs _ _) as [data|e] eqn:Hanswer.
  - destruct (py_in_pure "medium" data
                (requested (validated_request hs id_server client_secret sid)
                   w1)) as [r Hin].
    unfold validated_request in Hin. rewrite Hin.
    split; [destruct r as [[]|]; cbn; by rewrite Hreq|].
    split; [|done]. intros fields [= ->]. unfold py_in, ret in Hin.
    injection Hin as <-. by destruct (bool_decide _).
  - split; [destruct e; cbn; by rewrite Hreq|].
    split; [done|]. split.
    + by intros code msg response [= ->].
    + intros e' [= <-] Hother. destruct e; try done.
      by destruct (Hother code msg response).
Qed.

End Verification.

(** ** Proxied token requests *)

(** ** Python dicts as association lists *)

Lemma dict_get_set (k k' : string) (v : json) (d : list (string * json)) :
  dict_get k (dict_set k' v d)
  = if String.eqb k k' then Some v else dict_get k d.
Proof.
  induction d as [|[k0 v0] d IH]; simpl.
  - by destruct (String.eqb k k').
  - destruct (String.eqb_spec k' k0) as [->|Hne]; simpl.
    + by destruct (String.eqb k k0).
    + rewrite IH. destruct (String.eqb_spec k k0) as [->|]; [|done].
      destruct (String.eqb_spec k0 k'); [by subst|done].
Qed.

Lemma dict_get_update_other (k : string) (d e : list (string * json)) :
  k ∉ e.*1 → dict_get k (dict_update d e) = dict_get k d.
Proof.
  unfold dict_update. revert d.
  induction e as [|[k' v'] e IH]; intros d Hk; [done|].
  rewrite fmap_cons, not_elem_of_cons in Hk. destruct Hk as [Hne Hk].
  cbn [fold_left fst snd]. rewrite (IH _ Hk), dict_get_set.
  by destruct (String.eqb_spec k k').
Qed.

Lemma dict_get_update_entry (k : string) (v : json)
  (d e : list (string * json)) :
  NoDup e.*1 → (k, v) ∈ e → dict_get k (dict_update d e) = Some v.
Proof.
  revert d. induction e as [|[k' v'] e IH]; intros d Hnodup Hin.
  - by apply elem_of_nil in Hin.
  - rewrite fmap_cons in Hnodup. apply NoDup_cons in Hnodup as [Hfresh Hnodup].
    apply elem_of_cons in Hin as [[= -> ->]|Hin].
    + change (dict_update d ((k', v') :: e))
        with (dict_update (dict_set k' v' d) e).
      rewrite (dict_get_update_other _ _ _ Hfresh), dict_get_set.
      by rewrite String.eqb_refl.
    + change (dict_update d ((k', v') :: e))
        with (dict_update (dict_set k' v' d) e).
      by apply IH.
Qed.

Section TokenProxy.
Variable to_synapse_error : Z → string → string → exn.
Variable hs : HomeServer.

Lemma requestEmailToken_trusted (id_server email client_secret : string)
  (send_attempt : Z) (next_link : option string) (w w1 : World) :
  should_trust_id_server hs id_server w = (Return true, w1) →
  let req :=
    email_request hs id_server email client_secret send_attempt next_link in
  requestEmailToken to_synapse_error hs id_server email client_secret
    send_attempt next_link w
  = proxied_answer to_synapse_error "Proxied requestToken failed: %r"
      (get_simple_http_client hs (requests w1) req) (requested req w1).
Proof.
  intros Htrusted. cbv zeta.
  unfold requestEmailToken, bind at 1. rewrite Htrusted. cbn [negb].
  unfold email_request, email_params, proxied_answer. run.
  replace (if truthy next_link
           then dict_update
                  [("email", JStr email); ("client_secret", JStr client_secret);
                   ("send_attempt", JNum send_attempt)]
                  [("next_link", from_option JStr JNull next_link)]
           else [("email", JStr email); ("client_secret", JStr client_secret);
                 ("send_attempt", JNum send_attempt)])
    with ([("email", JStr email); ("client_secret", JStr client_secret);
           ("send_attempt", JNum send_attempt)]
          ++ (if truthy next_link
              then [("next_link", from_option JStr JNull next_link)]
              else []))%list
    by (by destruct (truthy next_link)).
  by destruct (get_simple_http_client hs _ _) as [data|[]].
Qed.

Lemma requestMsisdnToken_trusted (id_server country phone_number
  client_secret : string) (send_attempt : Z) (kwargs : list (string * json))
  (w w1 : World) :
  should_trust_id_server hs id_server w = (Return true, w1) →
  let req :=
    msisdn_request hs id_server country phone_number client_secret
      send_attempt kwargs in
  requestMsisdnToken to_synapse_error hs id_server country phone_number
    client_secret send_attempt kwargs w
  = proxied_answer to_synapse_error "Proxied requestToken failed: %r"
      (get_simple_http_client hs (requests w1) req) (requested req w1).
Proof.
  intros Htrusted. cbv zeta.
  unfold requestMsisdnToken, bind at 1. rewrite Htrusted. cbn [negb].
  unfold msisdn_request, proxied_answer. run.
  replace (match rewrite_identity_server_urls (config hs) !! rewrite hs id_server
           with Some host => host | None => rewrite hs id_server end)
    with (rewrite hs (rewrite hs id_server))
    by (unfold rewrite at 1; by destruct (_ !! rewrite hs id_server)).
  by destruct (get_simple_http_client hs _ _) as [data|[]].
Qed.

(** What a proxied answer leaves behind. *)
Lemma proxied_answer_frame (fmt : string) (answer : Result json) (w : World) :
  let out := proxied_answer to_synapse_error fmt answer w in
  requests (snd out) = requests w ∧ bindings (snd out) = bindings w
  ∧ signatures (snd out) = signatures w.
Proof. by destruct answer as [data|[]]. Qed.

Lemma proxied_answer_result (fmt : string) (answer : Result json) (w : World) :
  (∀ data, answer = Return data →
           fst (proxied_answer to_synapse_error fmt answer w) = Return data)
  ∧ (∀ code msg response,
       answer = Raise (HttpResponseException code msg response) →
       fst (proxied_answer to_synapse_error fmt answer w)
       = Raise (to_synapse_error code msg response))
  ∧ (∀ e, answer = Raise e →
          (∀ code msg response, e ≠ HttpResponseException code msg response) →
          fst (proxied_answer to_synapse_error fmt answer w) = Raise e).
Proof.
  split; [by intros data ->|]. split; [by intros code msg response ->|].
  intros e -> Hother. destruct e; try done.
  by destruct (Hother code msg response).
Qed.

(** X5.  For a trusted host [requestEmailToken] sends exactly one POST to
    the rewritten host and hands the remote payload back as it came; an
    [HttpResponseException] is raised again through [to_synapse_error] and
    any other exception propagates unchanged.  The body carries email,
    client_secret and send_attempt, and next_link only when one is given
    and is not the empty string. *)
Theorem requestEmailToken_proxies (id_server email client_secret : string)
  (send_attempt : Z) (next_link : option string) (w : World) :
  fst (should_trust_id_server hs id_server w) = Return true →
  let req :=
    email_request hs id_server email client_secret send_attempt next_link in
  let answer := get_simple_http_client hs (requests w) req in
  let run :=
    requestEmailToken to_synapse_error hs id_server email client_secret
      send_attempt next_link w in
  requests (snd run) = (requests w ++ [req])%list
  ∧ (∀ data, answer = Return data → fst run = Return data)
  ∧ (∀ code msg response,
       answer = Raise (HttpResponseException code msg response) →
       fst run = Raise (to_synapse_error code msg response))
  ∧ (∀ e, answer = Raise e →
          (∀ code msg response, e ≠ HttpResponseException code msg response) →
          fst run = Raise e)
  ∧ (next_link = None ∨ next_link = Some "" →
     req_body req
     = JObj [("email", JStr email); ("client_secret", JStr client_secret);
             ("send_attempt", JNum send_attempt)])
  ∧ (∀ link, next_link = Some link → link ≠ "" →
     req_body req
     = JObj [("email", JStr email); ("client_secret", JStr client_secret);
             ("send_attempt", JNum send_attempt); ("next_link", JStr link)]).
Proof.
  intros Htrusted. cbv zeta.
  destruct (should_trust_id_server_frame hs id_server w)
    as (b & w1 & E & Hreq & _).
  rewrite E in Htrusted. simpl in Htrusted. simplify_eq.
  rewrite (requestEmailToken_trusted _ _ _ _ _ _ _ E). rewrite Hreq.
  destruct (proxied_answer_frame "Proxied requestToken failed: %r"
              (get_simple_http_client hs (requests w)
                 (email_request hs id_server email client_secret send_attempt
                    next_link))
              (requested (email_request hs id_server email client_secret
                            send_attempt next_link) w1)) as (-> & _ & _).
  split; [cbn; by rewrite Hreq|].
  destruct (proxied_answer_result "Proxied requestToken failed: %r"
              (get_simple_http_client hs (requests w)
                 (email_request hs id_server email client_secret send_attempt
                    next_link))
              (requested (email_request hs id_server email client_secret
                            send_attempt next_link) w1)) as (H1 & H2 & H3).
  repeat split; try done.
  - by intros [->| ->].
  - intros link -> Hlink. unfold email_request, email_params. cbn.
    by destruct (String.eqb_spec link "").
Qed.

(** X6.  For a trusted host and extra keyword arguments (distinct keys,
    none of them one of the four named parameters), [requestMsisdnToken]
    sends exactly one request whose body holds country, phone_number,
    client_secret and send_attempt as given and every extra argument under
    its own key; the remote payload is returned as it came and an
    [HttpResponseException] is raised again through [to_synapse_error]. *)
Theorem requestMsisdnToken_proxies (id_server country phone_number
  client_secret : string) (send_attempt : Z) (kwargs : list (string * json))
  (w : World) :
  fst (should_trust_id_server hs id_server w) = Return true →
  NoDup kwargs.*1 →
  Forall (λ k, k ∉ kwargs.*1)
    ["country"; "phone_number"; "client_secret"; "send_attempt"] →
  let run :=
    requestMsisdnToken to_synapse_error hs id_server country phone_number
      client_secret send_attempt kwargs w in
  ∃ req params,
    requests (snd run) = (requests w ++ [req])%list
    ∧ req_body req = JObj params
    ∧ dict_get "country" params = Some (JStr country)
    ∧ dict_get "phone_number" params = Some (JStr phone_number)
    ∧ dict_get "client_secret" params = Some (JStr client_secret)
    ∧ dict_get "send_attempt" params = Some (JNum send_attempt)
    ∧ (∀ k v, (k, v) ∈ kwargs → dict_get k params = Some v)
    ∧ (∀ data, get_simple_http_client hs (requests w) req = Return data →
               fst run = Return data)
    ∧ (∀ code msg response,
         get_simple_http_client hs (requests w) req
         = Raise (HttpResponseException code msg response) →
         fst run = Raise (to_synapse_error code msg response)).
Proof.
  intros Htrusted Hnodup Hfresh. cbv zeta.
  destruct (should_trust_id_server_frame hs id_server w)
    as (b & w1 & E & Hreq & _).
  rewrite E in Htrusted. simpl in Htrusted. simplify_eq.
  rewrite (requestMsisdnToken_trusted _ _ _ _ _ _ _ _ E). rewrite Hreq.
  eexists (msisdn_request hs id_server country phone_number client_secret
             send_attempt kwargs), _.
  destruct (proxied_answer_frame "Proxied requestToken failed: %r"
              (get_simple_http_client hs (requests w)
                 (msisdn_request hs id_server country phone_number
                    client_secret send_attempt kwargs))
              (requested (msisdn_request hs id_server country phone_number
                            client_secret send_attempt kwargs) w1))
    as (-> & _ & _).
  destruct (proxied_answer_result "Proxied requestToken failed: %r"
              (get_simple_http_client hs (requests w)
                 (msisdn_request hs id_server country phone_number
                    client_secret send_attempt kwargs))
              (requested (msisdn_request hs id_server country phone_number
                            client_secret send_attempt kwargs) w1))
    as (H1 & H2 & _).
  split; [cbn; by rewrite Hreq|]. split; [reflexivity|].
  repeat split; try done.
  1-4: rewrite dict_get_update_other; [done|].
  1-4: rewrite Forall_forall in Hfresh; apply Hfresh; set_solver.
  intros k v Hin. by apply dict_get_update_entry.
Qed.

End TokenProxy.

(** ** Read-only flows, spellings, trust and engines *)

Section ReadOnly.
Variable to_synapse_error : Z → string → string → exn.
Variable hs : HomeServer.

Lemma threepid_from_creds_no_id_server (creds : gmap string string) (w : World) :
  cred_field creds "id_server" "idServer" = None →
  threepid_from_creds to_synapse_error hs creds w
  = (Raise (SynapseError 400 "No id_server in creds" Codes.UNKNOWN), w).
Proof.
  unfold cred_field, threepid_from_creds. run.
  destruct (creds !! "id_server"); [done|]. by intros ->.
Qed.

Lemma threepid_from_creds_no_client_secret (creds : gmap string string)
  (id_server : string) (w : World) :
  cred_field creds "id_server" "idServer" = Some id_server →
  cred_field creds "client_secret" "clientSecret" = None →
  threepid_from_creds to_synapse_error hs creds w
  = (Raise (SynapseError 400 "No client_secret in creds" Codes.UNKNOWN), w).
Proof.
  unfold cred_field, threepid_from_creds. run. intros Hid Hsecret.
  destruct (creds !! "client_secret"); [done|]. rewrite Hsecret.
  destruct (creds !! "id_server"); [done|]. by rewrite Hid.
Qed.

Lemma read_only_step_refl (w : World) : read_only_step w w.
Proof. split; [done|]. split; [done|]. by left. Qed.

(** X2.  Whatever their arguments and whatever the remote side answers,
    [threepid_from_creds], [requestEmailToken] and [requestMsisdnToken]
    never write to the binding store, never ask for a signature, and send
    at most one request. *)
Theorem verification_and_tokens_are_read_only (w : World) :
  (∀ creds,
     read_only_step w (snd (threepid_from_creds to_synapse_error hs creds w)))
  ∧ (∀ id_server email client_secret send_attempt next_link,
       read_only_step w
         (snd (requestEmailToken to_synapse_error hs id_server email
                 client_secret send_attempt next_link w)))
  ∧ (∀ id_server country phone_number client_secret send_attempt kwargs,
       read_only_step w
         (snd (requestMsisdnToken to_synapse_error hs id_server country
                 phone_number client_secret send_attempt kwargs w))).
Proof.
  split; [|split].
  - intros creds.
    destruct (cred_field creds "id_server" "idServer") as [id_server|] eqn:Hid;
      [|rewrite threepid_from_creds_no_id_server by done;
        apply read_only_step_refl].
    destruct (cred_field creds "client_secret" "clientSecret")
      as [client_secret|] eqn:Hsecret;
      [|rewrite (threepid_from_creds_no_client_secret _ _ _ Hid) by done;
        apply read_only_step_refl].
    rewrite (threepid_from_creds_fields _ _ _ _ _ _ Hid Hsecret).
    destruct (should_trust_id_server_frame hs id_server w)
      as (b & w1 & -> & Hreq & Hbind & Hsig).
    destruct b; [|by repeat split; [| |left]].
    run. destruct (creds !! "sid") as [sid|];
      [|by repeat split; [| |left]].
    destruct (get_simple_http_client hs _ _) as [data|e].
    + destruct (py_in_pure "medium" data
                  (requested (validated_request hs id_server client_secret sid)
                     w1)) as [r Hin].
      unfold validated_request in Hin. rewrite Hin.
      destruct r as [[]|]; (repeat split; [done|done|right; eexists; cbn;
                                            by rewrite Hreq]).
    + destruct e; (repeat split; [done|done|right; eexists; cbn;
                                   by rewrite Hreq]).
  - intros id_server email client_secret send_attempt next_link.
    destruct (should_trust_id_server_frame hs id_server w)
      as (b & w1 & E & Hreq & Hbind & Hsig).
    destruct b.
    + rewrite (requestEmailToken_trusted _ _ _ _ _ _ _ _ _ E).
      destruct (proxied_answer_frame to_synapse_error
                  "Proxied requestToken failed: %r"
                  (get_simple_http_client hs (requests w1)
                     (email_request hs id_server email client_secret
                        send_attempt next_link))
                  (requested (email_request hs id_server email client_secret
                                send_attempt next_link) w1))
        as (Hr & Hb & Hs).
      split; [by rewrite Hb|]. split; [by rewrite Hs|].
      right. eexists. rewrite Hr. cbn. by rewrite Hreq.
    + unfold requestEmailToken, bind at 1. rewrite E.
      by repeat split; [| |left].
  - intros id_server country phone_number client_secret send_attempt kwargs.
    destruct (should_trust_id_server_frame hs id_server w)
      as (b & w1 & E & Hreq & Hbind & Hsig).
    destruct b.
    + rewrite (requestMsisdnToken_trusted _ _ _ _ _ _ _ _ _ _ E).
      destruct (proxied_answer_frame to_synapse_error
                  "Proxied requestToken failed: %r"
                  (get_simple_http_client hs (requests w1)
                     (msisdn_request hs id_server country phone_number
                        client_secret send_attempt kwargs))
                  (requested (msisdn_request hs id_server country phone_number
                                client_secret send_attempt kwargs) w1))
        as (Hr & Hb & Hs).
      split; [by rewrite Hb|]. split; [by rewrite Hs|].
      right. eexists. rewrite Hr. cbn. by rewrite Hreq.
    + unfold requestMsisdnToken, bind at 1. rewrite E.
      by repeat split; [| |left].
Qed.

(** X3.  [threepid_from_creds] depends on a credential only through the
    first spelling present of [id_server] and of [client_secret] and
    through [sid]: two credentials that agree on these three give the same
    outcome and the same world, so the legacy spelling alone behaves like
    the current one. *)
Theorem threepid_from_creds_spelling (creds creds' : gmap string string)
  (w : World) :
  cred_field creds "id_server" "idServer"
  = cred_field creds' "id_server" "idServer" →
  cred_field creds "client_secret" "clientSecret"
  = cred_field creds' "client_secret" "clientSecret" →
  creds !! "sid" = creds' !! "sid" →
  threepid_from_creds to_synapse_error hs creds w
  = threepid_from_creds to_synapse_error hs creds' w.
Proof.
  intros Hid Hsecret Hsid.
  destruct (cred_field creds "id_server" "idServer") as [id_server|] eqn:Hid1;
    [|by rewrite !threepid_from_creds_no_id_server].
  destruct (cred_field creds "client_secret" "clientSecret")
    as [client_secret|] eqn:Hsecret1;
    [|by rewrite (threepid_from_creds_no_client_secret _ _ _ Hid1),
         (threepid_from_creds_no_client_secret creds' id_server)].
  rewrite (threepid_from_creds_fields _ _ _ _ _ _ Hid1 Hsecret1).
  rewrite (threepid_from_creds_fields _ _ creds' id_server client_secret)
    by done.
  unfold getitem. by rewrite Hsid.
Qed.

End ReadOnly.

(** X21.  Trust is monotone in the configuration: a host trusted by
    [should_trust_id_server] stays trusted when hosts are added to the
    trusted list or the testing override is switched on. *)
Theorem trust_is_monotone (hs hs' : HomeServer) (id_server : string)
  (w w' : World) :
  trusted_third_party_id_servers (config hs)
  ⊆ trusted_third_party_id_servers (config hs') →
  (trust_any_id_server_just_for_testing_do_not_use hs = true →
   trust_any_id_server_just_for_testing_do_not_use hs' = true) →
  fst (should_trust_id_server hs id_server w) = Return true →
  fst (should_trust_id_server hs' id_server w') = Return true.
Proof.
  intros Hsub Hflag.
  destruct (should_trust_id_server_eq hs id_server w) as (ev & _ & _ & ->).
  destruct (should_trust_id_server_eq hs' id_server w') as (ev' & _ & _ & ->).
  destruct (bool_decide_reflect
              (id_server ∈ trusted_third_party_id_servers (config hs)))
    as [Hin|Hout].
  - intros _. by rewrite bool_decide_eq_true_2 by by apply Hsub.
  - destruct (trust_any_id_server_just_for_testing_do_not_use hs); [|done].
    intros _. rewrite Hflag by done. by destruct (bool_decide _).
Qed.

(** X22.  [create_engine] raises [KeyError] for a configuration without
    ["name"], and it returns an engine only when [database_config["name"]]
    is ["sqlite3"], ["psycopg2"] or ["psycopg"] and the module of that
    backend could be imported: an unsupported name and a class made by
    [dummy_engine] never yield an engine. *)
Theorem create_engine_needs_name_and_module (py_str : json → string)
  (env : Engines.Imports) (database_config : gmap string json) :
  (database_config !! "name" = None →
   Engines.create_engine py_str env database_config = Raise (KeyError "name"))
  ∧ (∀ engine,
       Engines.create_engine py_str env database_config = Return engine →
       (database_config !! "name" = Some (JStr "sqlite3")
        ∧ Engines.sqlite_imports env = true)
       ∨ (database_config !! "name" = Some (JStr "psycopg2")
          ∧ Engines.postgres_imports env = true)
       ∨ (database_config !! "name" = Some (JStr "psycopg")
          ∧ Engines.psycopg_imports env = true)).
Proof.
  unfold Engines.create_engine. split; [by intros ->|]. intros engine.
  destruct (database_config !! "name") as [name|]; [|done].
  repeat case_decide; subst;
    unfold Engines.Sqlite3Engine, Engines.PostgresEngine, Engines.PsycopgEngine.
  - destruct (Engines.sqlite_imports env); [by auto|done].
  - destruct (Engines.postgres_imports env); [by auto|done].
  - destruct (Engines.psycopg_imports env); [by auto 10|done].
  - done.
Qed.

(** ** More on binding *)

Section BindingMore.
Variable json_loads : string → option json.
Variable hs : HomeServer.

(** A credential that lacks a field gets no further than the first log
    record. *)
Lemma bind_threepid_incomplete (creds : gmap string string) (mxid : string)
  (w : World) :
  cred_field creds "id_server" "idServer" = None
  ∨ cred_field creds "client_secret" "clientSecret" = None
  ∨ creds !! "sid" = None →
  snd (bind_threepid json_loads hs creds mxid w)
  = logged (mkLog DEBUG "binding threepid %r to %s" [LDict creds; LStr mxid]) w.
Proof.
  unfold cred_field, bind_threepid. run. intros Hmissing.
  destruct (creds !! "id_server"), (creds !! "idServer"),
    (creds !! "client_secret"), (creds !! "clientSecret"), (creds !! "sid");
    try reflexivity; destruct Hmissing as [H|[H|H]]; discriminate H.
Qed.

(** X7.  When the remote side answers a bind with a dict that has
    ["medium"] and ["address"], [bind_threepid] returns that dict as it
    came, has sent exactly the one bind request, and the store afterwards
    holds what it held before plus the row of the user, the answered
    medium and address, and the credential's own [id_server]. *)
Theorem bind_records_remote_answer (creds : gmap string string)
  (id_server client_secret sid mxid : string) (w : World)
  (fields : list (string * json)) (medium address : json) :
  cred_field creds "id_server" "idServer" = Some id_server →
  cred_field creds "client_secret" "clientSecret" = Some client_secret →
  creds !! "sid" = Some sid →
  get_simple_http_client hs (requests w)
    (bind_request hs id_server client_secret sid mxid) = Return (JObj fields) →
  dict_get "medium" fields = Some medium →
  dict_get "address" fields = Some address →
  let run := bind_threepid json_loads hs creds mxid w in
  fst run = Return (JObj fields)
  ∧ requests (snd run)
    = (requests w ++ [bind_request hs id_server client_secret sid mxid])%list
  ∧ (∀ b, b ∈ bindings (snd run)
          ↔ b ∈ bindings w
            ∨ b = ThreepidBinding mxid medium address id_server).
Proof.
  intros Hid Hsecret Hsid Hremote Hmedium Haddress. cbv zeta.
  rewrite (bind_threepid_fields _ _ _ _ _ _ _ _ Hid Hsecret Hsid), Hremote.
  unfold py_getitem. run. rewrite Hmedium, Haddress.
  split; [done|]. split; [done|].
  intros b. cbn [snd bindings requested logged recorded]. case_decide.
  - split; [by left|]. by intros [?| ->].
  - by rewrite elem_of_app, list_elem_of_singleton.
Qed.


(** X9.  Whatever the credential and whatever the remote side answers,
    [bind_threepid] never removes a row from the store, adds only rows of
    the given user keyed by the credential's own [id_server], asks for no
    signature, and sends at most one request. *)
Theorem bind_threepid_store_invariant (creds : gmap string string)
  (mxid : string) (w : World) :
  let w' := snd (bind_threepid json_loads hs creds mxid w) in
  (∀ b, b ∈ bindings w → b ∈ bindings w')
  ∧ (∀ b, b ∈ bindings w' →
          b ∈ bindings w
          ∨ (binding_user_id b = mxid
             ∧ cred_field creds "id_server" "idServer"
               = Some (binding_id_server b)))
  ∧ signatures w' = signatures w
  ∧ (requests w' = requests w
     ∨ ∃ req, requests w' = (requests w ++ [req])%list).
Proof.
  cbv zeta.
  destruct (cred_field creds "id_server" "idServer") as [id_server|] eqn:Hid;
    [|rewrite bind_threepid_incomplete by auto; by auto].
  destruct (cred_field creds "client_secret" "clientSecret")
    as [client_secret|] eqn:Hsecret;
    [|rewrite bind_threepid_incomplete by auto; by auto].
  destruct (creds !! "sid") as [sid|] eqn:Hsid;
    [|rewrite bind_threepid_incomplete by auto; by auto].
  rewrite (bind_threepid_fields _ _ _ _ _ _ _ _ Hid Hsecret Hsid).
  destruct (get_simple_http_client hs _ _) as [data|e].
  - unfold py_getitem.
    destruct data as [| | | | |fields]; try by eauto 10.
    run. destruct (dict_get "medium" fields) as [medium|]; [|by eauto 10].
    destruct (dict_get "address" fields) as [address|]; [|by eauto 10].
    cbn [snd bindings signatures requests requested logged recorded].
    split; [|split; [|by eauto]].
    + intros b Hb. case_decide; [done|]. apply elem_of_app. by left.
    + intros b. case_decide; [by left|].
      rewrite elem_of_app, list_elem_of_singleton. intros [?| ->]; by eauto.
  - destruct (as_CodeMessageException e); [|by eauto 10].
    destruct (json_loads _); by eauto 10.
Qed.

(** X10.  Every call of [bind_threepid], also one that fails at once on a
    malformed credential, first writes a DEBUG record whose arguments are
    the whole credential dict (client secret included) and the user. *)
Theorem bind_threepid_logs_credentials (creds : gmap string string)
  (mxid : string) (w : World) :
  ∃ later,
    logs (snd (bind_threepid json_loads hs creds mxid w))
    = (logs w
         ++ mkLog DEBUG "binding threepid %r to %s" [LDict creds; LStr mxid]
            :: later)%list.
Proof.
  destruct (cred_field creds "id_server" "idServer") as [id_server|] eqn:Hid;
    [|rewrite bind_threepid_incomplete by auto; by exists []].
  destruct (cred_field creds "client_secret" "clientSecret")
    as [client_secret|] eqn:Hsecret;
    [|rewrite bind_threepid_incomplete by auto; by exists []].
  destruct (creds !! "sid") as [sid|] eqn:Hsid;
    [|rewrite bind_threepid_incomplete by auto; by exists []].
  rewrite (bind_threepid_fields _ _ _ _ _ _ _ _ Hid Hsecret Hsid).
  destruct (get_simple_http_client hs _ _) as [data|e].
  - unfold py_getitem.
    destruct data as [| | | | |fields];
      try (cbn; rewrite <- app_assoc; by eexists).
    run. destruct (dict_get "medium" fields) as [medium|];
      [|cbn; rewrite <- app_assoc; by eexists].
    destruct (dict_get "address" fields) as [address|];
      cbn; rewrite <- app_assoc; by eexists.
  - destruct (as_CodeMessageException e); [|by exists []].
    destruct (json_loads _); by exists [].
Qed.

End BindingMore.

(** X11.  [bind_threepid], [try_unbind_threepid_with_id_server] and
    [try_unbind_threepid] never consult the trust configuration: two home
    servers that differ only in their trusted list, the testing override
    and the lookup flag give the same outcome and the same world. *)
Theorem bind_and_unbind_ignore_trust (trusted trusted' : list string)
  (override override' lookup lookup' : bool) (rules : gmap string string)
  (http : list Request → Request → Result json)
  (signer : SignCall → list string) :
  let hs := mkHomeServer (mkConfig trusted rules lookup) override http signer in
  let hs' :=
    mkHomeServer (mkConfig trusted' rules lookup') override' http signer in
  (∀ json_loads creds mxid w,
     bind_threepid json_loads hs creds mxid w
     = bind_threepid json_loads hs' creds mxid w)
  ∧ (∀ mxid threepid id_server w,
       try_unbind_threepid_with_id_server hs mxid threepid id_server w
       = try_unbind_threepid_with_id_server hs' mxid threepid id_server w)
  ∧ (∀ mxid threepid w,
       try_unbind_threepid hs mxid threepid w
       = try_unbind_threepid hs' mxid threepid w).
Proof.
  cbv zeta. split; [reflexivity|]. split; [reflexivity|]. reflexivity.
Qed.

Section BindSpelling.
Variable json_loads : string → option json.
Variable hs : HomeServer.

Lemma bind_threepid_incomplete_result (creds : gmap string string)
  (mxid : string) (w : World) :
  fst (bind_threepid json_loads hs creds mxid w)
  = match cred_field creds "id_server" "idServer",
          cred_field creds "client_secret" "clientSecret",
          creds !! "sid" with
    | None, _, _ =>
        Raise (SynapseError 400 "No id_server in creds" Codes.UNKNOWN)
    | Some _, None, _ =>
        Raise (SynapseError 400 "No client_secret in creds" Codes.UNKNOWN)
    | Some _, Some _, None => Raise (KeyError "sid")
    | Some _, Some _, Some _ => fst (bind_threepid json_loads hs creds mxid w)
    end.
Proof.
  unfold cred_field, bind_threepid. run.
  by destruct (creds !! "id_server"), (creds !! "idServer"),
    (creds !! "client_secret"), (creds !! "clientSecret"), (creds !! "sid").
Qed.

(** X4.  [bind_threepid] too depends on a credential only through the
    first spelling present of each field and through [sid]: two
    credentials that agree on these give the same result, the same store,
    the same requests and the same signatures (only the log records, which
    quote the credential, differ). *)
Theorem bind_threepid_spelling (creds creds' : gmap string string)
  (mxid : string) (w : World) :
  cred_field creds "id_server" "idServer"
  = cred_field creds' "id_server" "idServer" →
  cred_field creds "client_secret" "clientSecret"
  = cred_field creds' "client_secret" "clientSecret" →
  creds !! "sid" = creds' !! "sid" →
  let run := bind_threepid json_loads hs creds mxid w in
  let run' := bind_threepid json_loads hs creds' mxid w in
  fst run = fst run'
  ∧ bindings (snd run) = bindings (snd run')
  ∧ requests (snd run) = requests (snd run')
  ∧ signatures (snd run) = signatures (snd run').
Proof.
  intros Hid Hsecret Hsid. cbv zeta.
  destruct (cred_field creds "id_server" "idServer") as [id_server|] eqn:Hid1;
    [destruct (cred_field creds "client_secret" "clientSecret")
       as [client_secret|] eqn:Hsecret1;
     [destruct (creds !! "sid") as [sid|] eqn:Hsid1|]|].
  - rewrite (bind_threepid_fields _ _ _ _ _ _ _ _ Hid1 Hsecret1 Hsid1).
    rewrite (bind_threepid_fields _ _ creds' id_server client_secret sid)
      by done.
    destruct (get_simple_http_client hs _ _) as [data|e].
    + unfold py_getitem. destruct data as [| | | | |fields]; try done.
      run. destruct (dict_get "medium" fields); [|done].
      by destruct (dict_get "address" fields).
    + destruct (as_CodeMessageException e); [|done].
      by destruct (json_loads _).
  - rewrite bind_threepid_incomplete_result,
      (bind_threepid_incomplete_result creds').
    rewrite Hid1, Hsecret1, Hsid1, <- Hid, <- Hsecret, <- Hsid.
    by rewrite !bind_threepid_incomplete by auto.
  - rewrite bind_threepid_incomplete_result,
      (bind_threepid_incomplete_result creds').
    rewrite Hid1, Hsecret1, <- Hid, <- Hsecret.
    by rewrite !bind_threepid_incomplete by auto.
  - rewrite bind_threepid_incomplete_result,
      (bind_threepid_incomplete_result creds').
    rewrite Hid1, <- Hid.
    by rewrite !bind_threepid_incomplete by auto.
Qed.

End BindSpelling.

(** ** More on one unbind attempt *)

Section UnbindOutcomes.
Variable hs : HomeServer.

(** X12.  The outcomes of one unbind attempt on a threepid with medium and
    address.  An accepted request gives true and logs nothing.  A status
    400, 404 or 501 gives false after one WARNING record.  Any other HTTP
    status raises [SynapseError] 502 after one ERROR record, with the store
    untouched.  An exception that is not an [HttpResponseException]
    propagates unchanged, with the store and the log untouched. *)
Theorem unbind_attempt_outcomes (mxid : string)
  (threepid : gmap string string) (medium address id_server : string)
  (w : World) :
  threepid !! "medium" = Some medium →
  threepid !! "address" = Some address →
  let run := try_unbind_threepid_with_id_server hs mxid threepid id_server w in
  let answer :=
    get_simple_http_client hs (requests w)
      (unbind_request hs mxid medium address id_server) in
  (∀ data, answer = Return data →
           fst run = Return true ∧ logs (snd run) = logs w)
  ∧ (∀ code msg response,
       answer = Raise (HttpResponseException code msg response) →
       code ∈ [400; 404; 501]%Z →
       fst run = Return false
       ∧ logs (snd run)
         = (logs w ++ [mkLog WARNING
                         "Received %d response while unbinding threepid"
                         [LInt code]])%list)
  ∧ (∀ code msg response,
       answer = Raise (HttpResponseException code msg response) →
       code ∉ [400; 404; 501]%Z →
       fst run = Raise (SynapseError 502 "Failed to contact identity server"
                          Codes.UNKNOWN)
       ∧ bindings (snd run) = bindings w
       ∧ logs (snd run)
         = (logs w ++ [mkLog ERROR
                         "Failed to unbind threepid on identity server: %s"
                         [LExn (HttpResponseException code msg response)]])%list)
  ∧ (∀ e, answer = Raise e →
          (∀ code msg response, e ≠ HttpResponseException code msg response) →
          fst run = Raise e ∧ bindings (snd run) = bindings w
          ∧ logs (snd run) = logs w).
Proof.
  intros Hmedium Haddress. cbv zeta.
  rewrite (try_unbind_threepid_with_id_server_fields _ _ _ _ _ _ _
             Hmedium Haddress).
  split; [|split; [|split]].
  - by intros data ->.
  - intros code msg response -> Hcode.
    replace (unsupported code) with true; [done|].
    unfold unsupported. apply elem_of_cons in Hcode as [->|Hcode]; [done|].
    apply elem_of_cons in Hcode as [->|Hcode]; [done|].
    by apply list_elem_of_singleton in Hcode as ->.
  - intros code msg response -> Hcode.
    replace (unsupported code) with false; [done|].
    unfold unsupported. symmetry. rewrite !orb_false_iff, !Z.eqb_neq.
    rewrite !not_elem_of_cons in Hcode. tauto.
  - intros e -> Hother. destruct e; try done.
    by destruct (Hother code msg response).
Qed.

End UnbindOutcomes.

Lemma filter_other_row (row : Binding) (l : list Binding) :
  row ∉ l → filter (λ b, b ≠ row) l = l.
Proof.
  induction l as [|b l IH]; [done|]. rewrite not_elem_of_cons.
  intros [Hne Hrow]. rewrite filter_cons_True by done. by rewrite IH.
Qed.

Section UnbindMore.
Variable hs : HomeServer.
Variable mxid : string.

(** X13.  Whatever the remote side answers, one unbind attempt asks for
    exactly one signature and sends exactly one request.  The signature is
    for a POST of the unbind path with the request's own body, has no
    [destination], and names the host the caller gave as
    [destination_is]; the request goes to the rewritten host and carries
    that signature as its Authorization header. *)
Theorem unbind_signed_for_logical_host (threepid : gmap string string)
  (medium address id_server : string) (w : World) :
  threepid !! "medium" = Some medium →
  threepid !! "address" = Some address →
  let run := try_unbind_threepid_with_id_server hs mxid threepid id_server w in
  ∃ c r,
    signatures (snd run) = (signatures w ++ [c])%list
    ∧ requests (snd run) = (requests w ++ [r])%list
    ∧ destination c = None
    ∧ destination_is c = id_server
    ∧ method c = "POST"
    ∧ url_bytes c = "/_matrix/identity/api/v1/3pid/unbind"
    ∧ content c = req_body r
    ∧ req_body r
      = JObj [("mxid", JStr mxid);
              ("threepid",
               JObj [("medium", JStr medium); ("address", JStr address)])]
    ∧ req_url r
      = "https://" ++ rewrite hs id_server
        ++ "/_matrix/identity/api/v1/3pid/unbind"
    ∧ req_headers r = Some [("Authorization", get_http_client hs c)].
Proof.
  intros Hmedium Haddress. cbv zeta.
  exists (unbind_sign_call mxid medium address id_server),
    (unbind_request hs mxid medium address id_server).
  rewrite (try_unbind_threepid_with_id_server_fields _ _ _ _ _ _ _
             Hmedium Haddress).
  destruct (get_simple_http_client hs _ _) as [data|[]]; try done.
  by destruct (unsupported _).
Qed.


(** X15.  For a host that no rewrite rule applies to, an unbind attempt
    that returns (true or false) leaves in the store exactly the rows it
    held before other than the row of that user, medium, address and
    host. *)
Theorem unbind_removes_exactly_the_row (threepid : gmap string string)
  (medium address id_server : string) (w w' : World) (changed : bool) :
  threepid !! "medium" = Some medium →
  threepid !! "address" = Some address →
  rewrite_identity_server_urls (config hs) !! id_server = None →
  try_unbind_threepid_with_id_server hs mxid threepid id_server w
  = (Return changed, w') →
  ∀ b, b ∈ bindings w'
       ↔ b ∈ bindings w
         ∧ b ≠ ThreepidBinding mxid (JStr medium) (JStr address) id_server.
Proof.
  intros Hmedium Haddress Hplain Hrun b.
  rewrite (try_unbind_threepid_with_id_server_prunes _ _ _ _ _ _ _ _ _
             Hmedium Haddress Hrun).
  unfold rewrite. rewrite Hplain. cbn [default].
  rewrite list_elem_of_filter. tauto.
Qed.

(** X16.  When the threepid names a non-empty [id_server],
    [try_unbind_threepid] is the single attempt on that host: same result,
    same exception, same world, and the hosts recorded in the store are not
    contacted. *)
Theorem try_unbind_threepid_explicit_host (threepid : gmap string string)
  (id_server : string) (w : World) :
  threepid !! "id_server" = Some id_server →
  id_server ≠ "" →
  try_unbind_threepid hs mxid threepid w
  = try_unbind_threepid_with_id_server hs mxid threepid id_server w.
Proof.
  intros Hgiven Hnonempty.
  unfold try_unbind_threepid, unbind_id_servers, truthy, getitem.
  rewrite Hgiven. destruct (String.eqb_spec id_server ""); [done|].
  cbn [negb]. cbv [bind ret]. cbn [unbind_each]. cbv [bind ret].
  by destruct (try_unbind_threepid_with_id_server hs mxid threepid id_server w)
    as [[[]|] w1].
Qed.

Lemma try_unbind_threepid_with_id_server_delete
  (threepid : gmap string string) (id_server : string) (w : World) :
  try_unbind_threepid_with_id_server hs mxid (delete "id_server" threepid)
    id_server w
  = try_unbind_threepid_with_id_server hs mxid threepid id_server w.
Proof.
  unfold try_unbind_threepid_with_id_server, getitem.
  by rewrite !lookup_delete_ne by done.
Qed.

Lemma unbind_each_delete (threepid : gmap string string)
  (id_servers : list string) (changed : bool) (w : World) :
  unbind_each hs mxid (delete "id_server" threepid) id_servers changed w
  = unbind_each hs mxid threepid id_servers changed w.
Proof.
  revert changed w. induction id_servers as [|s rest IH]; intros changed w.
  - done.
  - cbn [unbind_each]. unfold bind.
    rewrite try_unbind_threepid_with_id_server_delete.
    destruct (try_unbind_threepid_with_id_server hs mxid threepid s w)
      as [[r|e] w1]; [apply IH|done].
Qed.

(** X17.  An [id_server] that is the empty string counts as none given:
    [try_unbind_threepid] then behaves as on the threepid without that
    key, going by the hosts recorded in the store. *)
Theorem try_unbind_threepid_empty_host (threepid : gmap string string)
  (w : World) :
  threepid !! "id_server" = Some "" →
  try_unbind_threepid hs mxid threepid w
  = try_unbind_threepid hs mxid (delete "id_server" threepid) w.
Proof.
  intros Hempty.
  unfold try_unbind_threepid, unbind_id_servers, truthy, getitem,
    get_id_servers_user_bound.
  rewrite Hempty, lookup_delete_eq, !lookup_delete_ne by done.
  cbn [String.eqb negb]. cbv [bind ret raise].
  destruct (threepid !! "medium") as [medium|]; [|done].
  destruct (threepid !! "address") as [address|]; [|done].
  destruct (fmap (M:=list) binding_id_server _); [done|].
  by rewrite unbind_each_delete.
Qed.

End UnbindMore.

(** ** More on unbinding from every host *)

Section UnbindClears.
Variable hs : HomeServer.
Variable mxid : string.
Variable threepid : gmap string string.
Variables medium address : string.
Hypothesis Hmedium : threepid !! "medium" = Some medium.
Hypothesis Haddress : threepid !! "address" = Some address.

(** A run leaves the store without the rows of the hosts it went through. *)
Lemma unbind_run_bindings (id_servers : list string) (w w' : World)
  (rs : list bool) :
  unbind_run hs mxid threepid id_servers w rs w' →
  ∀ b, b ∈ bindings w'
       ↔ b ∈ bindings w
         ∧ b ∉ unbind_row hs mxid medium address <$> id_servers.
Proof.
  induction 1 as [w|s rest w w1 w2 r rs Hone _ IH]; intros b.
  - rewrite fmap_nil. split; [|tauto]. split; [done|apply not_elem_of_nil].
  - rewrite IH, fmap_cons, not_elem_of_cons.
    rewrite (try_unbind_threepid_with_id_server_prunes _ _ _ _ _ _ _ _ _
               Hmedium Haddress Hone), list_elem_of_filter.
    unfold unbind_row. tauto.
Qed.

(** An attempt that raises leaves the store as it found it. *)
Lemma failed_attempt_keeps_store (id_server : string) (w w' : World) (e : exn) :
  try_unbind_threepid_with_id_server hs mxid threepid id_server w
  = (Raise e, w') →
  bindings w' = bindings w.
Proof.
  rewrite (try_unbind_threepid_with_id_server_fields _ _ _ _ _ _ _
             Hmedium Haddress).
  destruct (get_simple_http_client hs _ _) as [data|[]]; try by intros [= <- <-].
  destruct (unsupported _); by intros [= <- <-].
Qed.

(** X18.  Nothing is rolled back when an attempt raises in the middle of
    [try_unbind_threepid]: the call raises that exception, and the store
    is the one before the call without the rows deleted by the attempts
    on the earlier hosts. *)
Theorem unbind_all_keeps_earlier_removals (w w1 w2 : World)
  (before rest : list string) (id_server : string) (rs : list bool) (e : exn) :
  fst (unbind_id_servers mxid threepid w)
  = Return (before ++ id_server :: rest)%list →
  unbind_run hs mxid threepid before w rs w1 →
  try_unbind_threepid_with_id_server hs mxid threepid id_server w1
  = (Raise e, w2) →
  try_unbind_threepid hs mxid threepid w = (Raise e, w2)
  ∧ ∀ b, b ∈ bindings w2
         ↔ b ∈ bindings w
           ∧ b ∉ unbind_row hs mxid medium address <$> before.
Proof.
  intros Hres Hrun Hraise.
  destruct (unbind_id_servers_pure mxid threepid medium address
              Hmedium Haddress w) as [id_servers Hpure].
  rewrite Hpure in Hres. simpl in Hres. injection Hres as ->.
  split.
  - rewrite (try_unbind_threepid_resolved _ _ _ _ _ _ Hpure).
    rewrite <- (unbind_each_raises _ _ _ _ rest _ _ _ _ _ _ true Hrun Hraise).
    by destruct before.
  - intros b. rewrite (failed_attempt_keeps_store _ _ _ _ Hraise).
    by apply unbind_run_bindings with rs.
Qed.

Hypothesis Hno_host : truthy (threepid !! "id_server") = false.

Lemma unbind_id_servers_recorded (w : World) :
  unbind_id_servers mxid threepid w
  = (Return (binding_id_server <$> rows_of mxid medium address w), w).
Proof.
  unfold unbind_id_servers. rewrite Hno_host.
  unfold getitem. by rewrite Hmedium, Haddress.
Qed.

Hypothesis Htolerated :
  ∀ past r, tolerated (get_simple_http_client hs past r) = true.

Lemma tolerated_run (id_servers : list string) (w : World) :
  ∃ rs w', unbind_run hs mxid threepid id_servers w rs w'.
Proof.
  destruct (unbind_run_or_raise hs mxid threepid id_servers w)
    as [Hrun|(before & s & rest & rs & w1 & e & w2 & _ & _ & Hraise)];
    [exact Hrun|].
  exfalso. revert Hraise.
  rewrite (try_unbind_threepid_with_id_server_fields _ _ _ _ _ _ _
             Hmedium Haddress).
  pose proof (Htolerated (requests w1)
                (unbind_request hs mxid medium address s)) as Hok.
  destruct (get_simple_http_client hs _ _) as [data|[]]; try done.
  simpl in Hok. by rewrite Hok.
Qed.

(** X19.  When the threepid names no host, no rewrite rule moves a
    recorded host, and the remote side either accepts or answers 400, 404
    or 501, [try_unbind_threepid] returns; afterwards the store holds no
    row of that user, medium and address, every other row is still there,
    and a second call returns false without touching the world. *)
Theorem try_unbind_threepid_clears_store (w : World) :
  Forall (λ b, rewrite hs (binding_id_server b) = binding_id_server b)
    (rows_of mxid medium address w) →
  ∃ changed w',
    try_unbind_threepid hs mxid threepid w = (Return changed, w')
    ∧ rows_of mxid medium address w' = []
    ∧ (∀ b, b ∈ bindings w'
            ↔ b ∈ bindings w ∧ b ∉ rows_of mxid medium address w)
    ∧ try_unbind_threepid hs mxid threepid w' = (Return false, w').
Proof.
  intros Hplain.
  set (hosts := binding_id_server <$> rows_of mxid medium address w).
  assert (∀ b, b ∈ unbind_row hs mxid medium address <$> hosts
               ↔ b ∈ rows_of mxid medium address w) as Hrows.
  { intros b. unfold hosts. rewrite <- list_fmap_compose.
    rewrite list_elem_of_fmap. rewrite Forall_forall in Hplain. split.
    - intros (b' & -> & Hb'). specialize (Hplain b' Hb').
      pose proof Hb' as Hmatch. unfold rows_of in Hmatch.
      apply list_elem_of_filter in Hmatch as [(Hu & Hm & Ha) _].
      unfold compose, unbind_row. rewrite Hplain.
      destruct b'; simpl in *; by subst.
    - intros Hb. exists b. split; [|done]. specialize (Hplain b Hb).
      unfold rows_of in Hb. apply list_elem_of_filter in Hb as [(Hu & Hm & Ha) _].
      unfold compose, unbind_row. rewrite Hplain.
      destruct b; simpl in *; by subst. }
  assert (∀ w', (∀ b, b ∈ bindings w'
                      ↔ b ∈ bindings w ∧ b ∉ rows_of mxid medium address w) →
                rows_of mxid medium address w' = []) as Hgone.
  { intros w' Hw'. apply elem_of_nil_inv. intros b Hb.
    unfold rows_of in Hb. apply list_elem_of_filter in Hb as [Hmatch Hb].
    apply Hw' in Hb as [Hb Hout]. apply Hout.
    unfold rows_of. by apply list_elem_of_filter. }
  assert (∀ w', rows_of mxid medium address w' = [] →
                try_unbind_threepid hs mxid threepid w' = (Return false, w'))
    as Hagain.
  { intros w' Hnone.
    rewrite (try_unbind_threepid_resolved _ _ _ _ _ _
               (unbind_id_servers_recorded w')).
    by rewrite Hnone. }
  destruct (tolerated_run hosts w) as (rs & w' & Hrun).
  pose proof (unbind_run_bindings _ _ _ _ Hrun) as Hw'.
  assert (∀ b, b ∈ bindings w'
               ↔ b ∈ bindings w ∧ b ∉ rows_of mxid medium address w) as Hkept.
  { intros b. rewrite Hw', Hrows. done. }
  rewrite (try_unbind_threepid_resolved _ _ _ _ _ _
             (unbind_id_servers_recorded w)).
  fold hosts. destruct hosts as [|s rest] eqn:Hhosts.
  - inversion Hrun; subst. exists false, w'.
    split; [done|]. split; [by apply Hgone|]. split; [done|].
    apply Hagain. by apply Hgone.
  - rewrite (unbind_each_returns _ _ _ _ _ _ _ true Hrun).
    eexists _, w'. split; [done|]. split; [by apply Hgone|]. split; [done|].
    apply Hagain. by apply Hgone.
Qed.

End UnbindClears.

Section RoundTrip.
Variable json_loads : string → option json.
Variable hs : HomeServer.

(** X20.  Binding and then unbinding restores the store.  After a bind
    whose answer gives medium and address as strings, the host is among
    those recorded for the user; when no rewrite rule applies to the host
    and the row was not there before the bind, an unbind attempt on that
    host that the remote side accepts (or answers with 400, 404 or 501)
    returns and leaves the store as it was before the bind. *)
Theorem bind_then_unbind_restores_store (creds threepid : gmap string string)
  (id_server client_secret sid mxid medium address : string) (w : World)
  (fields : list (string * json)) :
  cred_field creds "id_server" "idServer" = Some id_server →
  cred_field creds "client_secret" "clientSecret" = Some client_secret →
  creds !! "sid" = Some sid →
  get_simple_http_client hs (requests w)
    (bind_request hs id_server client_secret sid mxid) = Return (JObj fields) →
  dict_get "medium" fields = Some (JStr medium) →
  dict_get "address" fields = Some (JStr address) →
  threepid !! "medium" = Some medium →
  threepid !! "address" = Some address →
  rewrite_identity_server_urls (config hs) !! id_server = None →
  ThreepidBinding mxid (JStr medium) (JStr address) id_server ∉ bindings w →
  tolerated
    (get_simple_http_client hs
       (requests w ++ [bind_request hs id_server client_secret sid mxid])
       (unbind_request hs mxid medium address id_server)) = true →
  let bound := snd (bind_threepid json_loads hs creds mxid w) in
  let unbound :=
    try_unbind_threepid_with_id_server hs mxid threepid id_server bound in
  id_server ∈ binding_id_server <$> rows_of mxid medium address bound
  ∧ (∃ changed, fst unbound = Return changed)
  ∧ bindings (snd unbound) = bindings w.
Proof.
  intros Hid Hsecret Hsid Hremote Hm Ha Hmedium Haddress Hplain Hfresh Hok.
  cbv zeta.
  rewrite (bind_threepid_fields _ _ _ _ _ _ _ _ Hid Hsecret Hsid), Hremote.
  unfold py_getitem. run. rewrite Hm, Ha.
  cbn [snd]. set (row := ThreepidBinding mxid (JStr medium) (JStr address) id_server).
  match goal with |- context [recorded row ?w0] => set (w1 := recorded row w0) end.
  assert (bindings w1 = (bindings w ++ [row])%list) as Hw1.
  { unfold w1. cbn [bindings recorded logged requested].
    by rewrite decide_False. }
  assert (requests w1
          = (requests w ++ [bind_request hs id_server client_secret sid mxid])%list)
    as Hreq1 by reflexivity.
  split.
  { unfold rows_of. rewrite Hw1, filter_app, fmap_app, elem_of_app. right.
    rewrite filter_cons_True by done. simpl. apply list_elem_of_here. }
  rewrite (try_unbind_threepid_with_id_server_fields _ _ _ _ _ _ _
             Hmedium Haddress).
  rewrite Hreq1.
  assert (rewrite hs id_server = id_server) as Hsame
    by (unfold rewrite; by rewrite Hplain).
  assert (filter (λ b, b ≠ ThreepidBinding mxid (JStr medium) (JStr address)
                           (rewrite hs id_server)) (bindings w1)
          = bindings w) as Hback.
  { rewrite Hsame, Hw1, filter_app, filter_cons_False, filter_nil, app_nil_r
      by (intros Hne; by apply Hne).
    by apply filter_other_row. }
  destruct (get_simple_http_client hs (requests w ++ _) _) as [data|[]];
    try done.
  - split; [eexists; reflexivity|]. apply Hback.
  - simpl in Hok. rewrite Hok. split; [eexists; reflexivity|]. apply Hback.
Qed.

End RoundTrip.

(** ** The properties at the sample configurations *)

Lemma threepid_from_creds_verifies_witness :
  fst (threepid_from_creds Sample.proxied (Sample.home Sample.accepting)
         Sample.creds Sample.empty_world)
  = Return (Some Sample.bind_payload).
Proof.
  destruct (threepid_from_creds_verifies Sample.proxied
              (Sample.home Sample.accepting) Sample.creds "id.example"
              "s3cr3t" "abc" Sample.empty_world)
    as (_ & Hdict & _); [vm_compute; reflexivity..|].
  exact (Hdict [("medium", JStr "email");
                ("address", JStr "alice@example.com")] eq_refl).
Defined.

Lemma threepid_from_creds_spelling_witness :
  threepid_from_creds Sample.proxied (Sample.home Sample.accepting)
    Sample.creds Sample.empty_world
  = threepid_from_creds Sample.proxied (Sample.home Sample.accepting)
      Scenario.legacy_creds Sample.empty_world.
Proof.
  apply (threepid_from_creds_spelling Sample.proxied
           (Sample.home Sample.accepting) Sample.creds Scenario.legacy_creds
           Sample.empty_world); vm_compute; reflexivity.
Defined.

Lemma bind_threepid_spelling_witness :
  fst (bind_threepid Sample.decode (Sample.home Sample.accepting)
         Sample.creds Sample.alice Sample.empty_world)
  = fst (bind_threepid Sample.decode (Sample.home Sample.accepting)
           Scenario.legacy_creds Sample.alice Sample.empty_world)
  ∧ bindings (snd (bind_threepid Sample.decode (Sample.home Sample.accepting)
                     Sample.creds Sample.alice Sample.empty_world))
    = bindings (snd (bind_threepid Sample.decode
                       (Sample.home Sample.accepting) Scenario.legacy_creds
                       Sample.alice Sample.empty_world))
  ∧ requests (snd (bind_threepid Sample.decode (Sample.home Sample.accepting)
                     Sample.creds Sample.alice Sample.empty_world))
    = requests (snd (bind_threepid Sample.decode
                       (Sample.home Sample.accepting) Scenario.legacy_creds
                       Sample.alice Sample.empty_world))
  ∧ signatures (snd (bind_threepid Sample.decode (Sample.home Sample.accepting)
                       Sample.creds Sample.alice Sample.empty_world))
    = signatures (snd (bind_threepid Sample.decode
                         (Sample.home Sample.accepting) Scenario.legacy_creds
                         Sample.alice Sample.empty_world)).
Proof.
  apply (bind_threepid_spelling Sample.decode (Sample.home Sample.accepting)
           Sample.creds Scenario.legacy_creds Sample.alice Sample.empty_world);
    vm_compute; reflexivity.
Defined.

Lemma requestEmailToken_proxies_witness :
  requests (snd (requestEmailToken Sample.proxied
                   (Sample.home Sample.accepting) "id.example"
                   "alice@example.com" "s3cr3t" 1 (Some "")
                   Sample.empty_world))
  = [email_request (Sample.home Sample.accepting) "id.example"
       "alice@example.com" "s3cr3t" 1 (Some "")]
  ∧ req_body (email_request (Sample.home Sample.accepting) "id.example"
                "alice@example.com" "s3cr3t" 1 (Some ""))
    = JObj [("email", JStr "alice@example.com");
            ("client_secret", JStr "s3cr3t"); ("send_attempt", JNum 1)].
Proof.
  destruct (requestEmailToken_proxies Sample.proxied
              (Sample.home Sample.accepting) "id.example" "alice@example.com"
              "s3cr3t" 1 (Some "") Sample.empty_world)
    as (Hsent & _ & _ & _ & Hbody & _); [vm_compute; reflexivity|].
  split; [exact Hsent|]. apply Hbody. right. reflexivity.
Defined.

Lemma requestMsisdnToken_proxies_witness :
  ∃ req params,
    requests (snd (requestMsisdnToken Sample.proxied
                     (Sample.home Sample.accepting) "id.example" "GB"
                     "07700900000" "s3cr3t" 1
                     [("next_link", JStr "https://example.org/")]
                     Sample.empty_world))
    = [req]
    ∧ req_body req = JObj params
    ∧ dict_get "phone_number" params = Some (JStr "07700900000")
    ∧ dict_get "next_link" params = Some (JStr "https://example.org/").
Proof.
  destruct (requestMsisdnToken_proxies Sample.proxied
              (Sample.home Sample.accepting) "id.example" "GB" "07700900000"
              "s3cr3t" 1 [("next_link", JStr "https://example.org/")]
              Sample.empty_world)
    as (req & params & Hsent & Hbody & _ & Hphone & _ & _ & Hextra & _).
  - vm_compute. reflexivity.
  - apply (bool_decide_unpack _). vm_compute. exact I.
  - apply (bool_decide_unpack _). vm_compute. exact I.
  - exists req, params. split; [exact Hsent|]. split; [exact Hbody|].
    split; [exact Hphone|]. apply Hextra. apply list_elem_of_here.
Defined.

Lemma bind_records_remote_answer_witness :
  fst (bind_threepid Sample.decode (Sample.home Sample.accepting)
         Sample.creds Sample.alice Sample.empty_world)
  = Return Sample.bind_payload
  ∧ Sample.alice_at "id.example"
    ∈ bindings (snd (bind_threepid Sample.decode
                       (Sample.home Sample.accepting) Sample.creds
                       Sample.alice Sample.empty_world)).
Proof.
  destruct (bind_records_remote_answer Sample.decode
              (Sample.home Sample.accepting) Sample.creds "id.example"
              "s3cr3t" "abc" Sample.alice Sample.empty_world
              [("medium", JStr "email");
               ("address", JStr "alice@example.com")]
              (JStr "email") (JStr "alice@example.com"))
    as (Hresult & _ & Hstore); [vm_compute; reflexivity..|].
  split; [exact Hresult|]. apply Hstore. right. reflexivity.
Defined.


Lemma unbind_attempt_outcomes_witness :
  fst (try_unbind_threepid_with_id_server (Sample.home (Sample.failing 501))
         Sample.alice Sample.threepid "id.example" Sample.bound_world)
  = Return false.
Proof.
  destruct (unbind_attempt_outcomes (Sample.home (Sample.failing 501))
              Sample.alice Sample.threepid "email" "alice@example.com"
              "id.example" Sample.bound_world)
    as (_ & Hunsupported & _); [vm_compute; reflexivity..|].
  apply (Hunsupported 501 "error" "{}" eq_refl).
  apply (bool_decide_unpack _). vm_compute. exact I.
Defined.

Lemma unbind_signed_for_logical_host_witness :
  ∃ c r,
    signatures (snd (try_unbind_threepid_with_id_server
                       (Sample.home (Sample.failing 500)) Sample.alice
                       Sample.threepid "id.example" Sample.bound_world))
    = [c]
    ∧ requests (snd (try_unbind_threepid_with_id_server
                       (Sample.home (Sample.failing 500)) Sample.alice
                       Sample.threepid "id.example" Sample.bound_world))
      = [r]
    ∧ destination_is c = "id.example"
    ∧ req_url r = "https://dial.example/_matrix/identity/api/v1/3pid/unbind"
    ∧ req_headers r = Some [("Authorization", Sample.signer c)].
Proof.
  destruct (unbind_signed_for_logical_host (Sample.home (Sample.failing 500))
              Sample.alice Sample.threepid "email" "alice@example.com"
              "id.example" Sample.bound_world)
    as (c & r & Hsigned & Hsent & _ & Hfor & _ & _ & _ & _ & Hurl & Hauth);
    [vm_compute; reflexivity..|].
  exists c, r. split; [exact Hsigned|]. split; [exact Hsent|].
  split; [exact Hfor|]. split; [exact Hurl|exact Hauth].
Defined.


Lemma unbind_removes_exactly_the_row_witness :
  Sample.alice_at "b.example" ∈ bindings Scenario.after_a
  ∧ Sample.alice_at "a.example" ∉ bindings Scenario.after_a.
Proof.
  pose proof (unbind_removes_exactly_the_row Scenario.half_down Sample.alice
                Sample.threepid "email" "alice@example.com" "a.example"
                Sample.twice_bound_world Scenario.after_a true
                eq_refl eq_refl eq_refl eq_refl) as Hrows.
  split.
  - apply Hrows. split; [|discriminate].
    apply list_elem_of_further, list_elem_of_here.
  - intros Hin. apply Hrows in Hin as [_ Hne]. by apply Hne.
Defined.

Lemma try_unbind_threepid_explicit_host_witness :
  try_unbind_threepid (Sample.plain_home Sample.accepting) Sample.alice
    (Scenario.threepid_at "a.example") Sample.twice_bound_world
  = try_unbind_threepid_with_id_server (Sample.plain_home Sample.accepting)
      Sample.alice (Scenario.threepid_at "a.example") "a.example"
      Sample.twice_bound_world.
Proof.
  apply (try_unbind_threepid_explicit_host (Sample.plain_home Sample.accepting)
           Sample.alice (Scenario.threepid_at "a.example") "a.example"
           Sample.twice_bound_world).
  - vm_compute. reflexivity.
  - discriminate.
Defined.

Lemma try_unbind_threepid_empty_host_witness :
  try_unbind_threepid (Sample.plain_home Sample.accepting) Sample.alice
    (Scenario.threepid_at "") Sample.twice_bound_world
  = try_unbind_threepid (Sample.plain_home Sample.accepting) Sample.alice
      (delete "id_server" (Scenario.threepid_at "")) Sample.twice_bound_world.
Proof.
  apply (try_unbind_threepid_empty_host (Sample.plain_home Sample.accepting)
           Sample.alice (Scenario.threepid_at "") Sample.twice_bound_world).
  vm_compute. reflexivity.
Defined.

Lemma unbind_all_keeps_earlier_removals_witness :
  try_unbind_threepid Scenario.half_down Sample.alice Sample.threepid
    Sample.twice_bound_world
  = (Raise (SynapseError 502 "Failed to contact identity server"
              Codes.UNKNOWN), Scenario.after_b)
  ∧ ∀ b, b ∈ bindings Scenario.after_b
         ↔ b ∈ bindings Sample.twice_bound_world
           ∧ b ∉ unbind_row Scenario.half_down Sample.alice "email"
                   "alice@example.com" <$> ["a.example"].
Proof.
  apply (unbind_all_keeps_earlier_removals Scenario.half_down Sample.alice
           Sample.threepid "email" "alice@example.com" eq_refl eq_refl
           Sample.twice_bound_world Scenario.after_a Scenario.after_b
           ["a.example"] [] "b.example" [true]).
  - vm_compute. reflexivity.
  - eapply unbind_run_cons; [vm_compute; reflexivity|constructor].
  - vm_compute. reflexivity.
Defined.

Lemma try_unbind_threepid_clears_store_witness :
  ∃ changed w',
    try_unbind_threepid (Sample.plain_home Sample.accepting) Sample.alice
      Sample.threepid Sample.twice_bound_world
    = (Return changed, w')
    ∧ rows_of Sample.alice "email" "alice@example.com" w' = []
    ∧ (∀ b, b ∈ bindings w'
            ↔ b ∈ bindings Sample.twice_bound_world
              ∧ b ∉ rows_of Sample.alice "email" "alice@example.com"
                      Sample.twice_bound_world)
    ∧ try_unbind_threepid (Sample.plain_home Sample.accepting) Sample.alice
        Sample.threepid w'
      = (Return false, w').
Proof.
  apply (try_unbind_threepid_clears_store (Sample.plain_home Sample.accepting)
           Sample.alice Sample.threepid "email" "alice@example.com"
           eq_refl eq_refl eq_refl (λ _ _, eq_refl)
           Sample.twice_bound_world).
  apply (bool_decide_unpack _). vm_compute. exact I.
Defined.

Lemma bind_then_unbind_restores_store_witness :
  bindings
    (snd (try_unbind_threepid_with_id_server
            (Sample.plain_home Sample.accepting) Sample.alice Sample.threepid
            "a.example"
            (snd (bind_threepid Sample.decode
                    (Sample.plain_home Sample.accepting)
                    (Scenario.creds_at "a.example") Sample.alice
                    Sample.empty_world))))
  = bindings Sample.empty_world.
Proof.
  destruct (bind_then_unbind_restores_store Sample.decode
              (Sample.plain_home Sample.accepting)
              (Scenario.creds_at "a.example") Sample.threepid "a.example"
              "s3cr3t" "abc" Sample.alice "email" "alice@example.com"
              Sample.empty_world
              [("medium", JStr "email");
               ("address", JStr "alice@example.com")])
    as (_ & _ & Hrestored);
    [first [apply not_elem_of_nil | vm_compute; reflexivity]..|].
  exact Hrestored.
Defined.

Lemma trust_is_monotone_witness :
  fst (should_trust_id_server Scenario.wider_home "id.example"
         Sample.empty_world)
  = Return true.
Proof.
  apply (trust_is_monotone (Sample.home Sample.accepting) Scenario.wider_home
           "id.example" Sample.empty_world Sample.empty_world).
  - apply (bool_decide_unpack _). vm_compute. exact I.
  - discriminate.
  - vm_compute. reflexivity.
Defined.
